(** * Verification of the chat front end and of the retrieval contract

    The development embeds the JavaScript sources of the chat client
    (src/services/chatService.js, src/components/ChatInterface.js,
    MessageInput.js, Message.js, Sidebar.js and App.js) as Rocq
    functions over an explicit model of JavaScript values, of the
    axios HTTP client and of the React state they update, and proves
    the properties the specification states about them. *)

From Stdlib Require Import ZArith NArith QArith Qround Qabs Qpower Lqa.
From Stdlib Require Import List String Ascii DecimalString Bool Lia.
From stdpp Require Import base list sorting.

Local Open Scope Z_scope.
Set Warnings "-register-all".

(** ** JavaScript strings *)

(** A JavaScript string is a sequence of UTF-16 code units. *)
Definition jstring := list N.

(** The string denoted by an ASCII literal of the source text. *)
Definition lit (s : string) : jstring := map N_of_ascii (list_ascii_of_string s).
Arguments lit s%_string.

Definition jstring_eqb (a b : jstring) : bool := bool_decide (a = b).

(** ECMAScript WhiteSpace and LineTerminator code points, the ones
    [String.prototype.trim] strips. *)
Definition is_white_space (c : N) : bool :=
  (   (c =? 0x0009) || (c =? 0x000A) || (c =? 0x000B) || (c =? 0x000C)
   || (c =? 0x000D) || (c =? 0x0020) || (c =? 0x00A0) || (c =? 0x1680)
   || ((0x2000 <=? c) && (c <=? 0x200A))
   || (c =? 0x2028) || (c =? 0x2029) || (c =? 0x202F) || (c =? 0x205F)
   || (c =? 0x3000) || (c =? 0xFEFF))%N.

Fixpoint trimStart (s : jstring) : jstring :=
  match s with
  | c :: s' => if is_white_space c then trimStart s' else s
  | [] => []
  end.

Definition trimEnd (s : jstring) : jstring := rev (trimStart (rev s)).

(** [s.trim()] *)
Definition trim (s : jstring) : jstring := trimEnd (trimStart s).

(** ** JavaScript values

    The values that cross the wire or sit in component state are plain
    JSON data; numbers are taken as exact rationals. *)
Inductive JsValue : Type :=
| JUndefined
| JNull
| JBool (b : bool)
| JNum (q : Q)
| JStr (s : jstring)
| JArr (items : list JsValue)
| JObj (fields : list (jstring * JsValue)).

(** The result of ToNumber. *)
Inductive JsNumber : Type :=
| NaN
| Finite (q : Q)
| PosInfinity
| NegInfinity.

(** Operations of the host (engine and browser) that the sources call
    and whose result is fixed by the platform, not by this program. *)
Class JsHost : Type := {
  (** Number::toString *)
  NumberToString : Q -> jstring;
  (** StringToNumber, used by ToNumber on strings *)
  StringToNumber : jstring -> JsNumber;
  (** [new Date(t).toISOString()] for a time value in milliseconds *)
  DateToISOString : Z -> jstring
}.

(** ToBoolean *)
Definition truthy (v : JsValue) : bool :=
  match v with
  | JUndefined | JNull => false
  | JBool b => b
  | JNum q => negb (Qeq_bool q 0)
  | JStr s => match s with [] => false | _ => true end
  | JArr _ | JObj _ => true
  end.

(** [a || b] *)
Definition js_or (a b : JsValue) : JsValue := if truthy a then a else b.

Fixpoint assoc (k : jstring) (fields : list (jstring * JsValue)) : JsValue :=
  match fields with
  | [] => JUndefined
  | (k', v) :: rest => if jstring_eqb k k' then v else assoc k rest
  end.

Definition js_length (n : nat) : JsValue := JNum (inject_Z (Z.of_nat n)).

(** [v.k] for the property names this program reads ([response],
    [sources], [metadata], [message], [models], [length], [url],
    [title]), none of which is inherited from a built-in prototype.
    [None] stands for the TypeError raised when [v] is undefined or
    null. *)
Definition get_prop (v : JsValue) (k : jstring) : option JsValue :=
  match v with
  | JUndefined | JNull => None
  | JBool _ | JNum _ => Some JUndefined
  | JStr s => Some (if jstring_eqb k (lit "length") then js_length (length s) else JUndefined)
  | JArr l => Some (if jstring_eqb k (lit "length") then js_length (length l) else JUndefined)
  | JObj fields => Some (assoc k fields)
  end.

(** [v?.k] *)
Definition get_prop_opt (v : JsValue) (k : jstring) : JsValue :=
  match get_prop v k with
  | Some x => x
  | None => JUndefined
  end.

Definition join (sep : jstring) (parts : list jstring) : jstring :=
  match parts with
  | [] => []
  | p :: ps => p ++ concat (map (fun x => sep ++ x) ps)
  end.

Section Conversions.
Context {host : JsHost}.

(** ToString on plain data: an array joins its elements with commas
    (undefined and null elements give the empty string), an object
    gives [[object Object]]. *)
Fixpoint to_string (v : JsValue) : jstring :=
  match v with
  | JUndefined => lit "undefined"
  | JNull => lit "null"
  | JBool true => lit "true"
  | JBool false => lit "false"
  | JNum q => NumberToString q
  | JStr s => s
  | JArr l =>
      join (lit ",")
        (map (fun x => match x with
                       | JUndefined | JNull => []
                       | _ => to_string x
                       end) l)
  | JObj _ => lit "[object Object]"
  end.

(** ToNumber *)
Definition to_number (v : JsValue) : JsNumber :=
  match v with
  | JUndefined => NaN
  | JNull => Finite 0
  | JBool true => Finite 1
  | JBool false => Finite 0
  | JNum q => Finite q
  | JStr s => StringToNumber s
  | JArr _ | JObj _ => StringToNumber (to_string v)
  end.

(** [v > 0] *)
Definition js_gt_zero (v : JsValue) : bool :=
  match to_number v with
  | Finite q => negb (Qle_bool q 0)
  | PosInfinity => true
  | NaN | NegInfinity => false
  end.
End Conversions.

(** [v === 'literal'] *)
Definition strict_eq_str (v : JsValue) (s : jstring) : bool :=
  match v with
  | JStr t => jstring_eqb t s
  | _ => false
  end.

(** Truncation toward zero, the value [parseInt] gives on the decimal
    text of a number. *)
Definition parseInt (q : Q) : Z := Z.quot (Qnum q) (Z.pos (Qden q)).

(** ** Application data *)

(** A chat message as the components build and read it; a property the
    object literal does not set is [JUndefined]. *)
Record Message : Type := {
  msg_id : JsValue;
  msg_type : JsValue;
  msg_content : JsValue;
  msg_sources : JsValue;
  msg_timestamp : JsValue
}.

(** An entry of the [chat_history] sent to the backend. *)
Record ConversationTurn : Type := {
  role : jstring;
  content : JsValue;
  timestamp : JsValue
}.

(** The [settings] state of App. *)
Record Settings : Type := {
  model : jstring;
  temperature : Q;
  maxTokens : Z;
  enableRAG : bool
}.

Record PayloadSettings : Type := {
  ps_model : jstring;
  ps_temperature : Q;
  ps_max_tokens : Z;
  ps_enable_rag : bool
}.

Record ChatPayload : Type := {
  p_message : jstring;
  p_chat_history : list ConversationTurn;
  p_settings : PayloadSettings
}.

(** What [sendMessage] resolves to. *)
Record ChatResult : Type := {
  res_content : JsValue;
  res_sources : JsValue;
  res_metadata : JsValue
}.

(** ** The axios client *)

Inductive Method : Type := GET | POST.

Record Request : Type := {
  req_method : Method;
  req_url : jstring;
  req_body : option ChatPayload
}.

Record AxiosResponse : Type := {
  data : JsValue;
  status : Z;
  statusText : jstring
}.

(** The object a request promise rejects with: [code] is undefined or
    a string, [response] is set when the server answered with an error
    status, [request] when the request was made and got no answer. *)
Record AxiosError : Type := {
  err_code : JsValue;
  err_response : option AxiosResponse;
  err_request : bool
}.

Inductive AxiosOutcome : Type :=
| Resolved (r : AxiosResponse)
| Rejected (e : AxiosError).

(** Values that can be thrown in this program. *)
Inductive Thrown : Type :=
| ErrorObj (message : jstring)
| TypeErrorObj
| AxiosErrorObj (e : AxiosError).

(** [error.code], [error.response] and [error.request] as the catch
    block of [sendMessage] reads them. *)
Definition thrown_code (e : Thrown) : JsValue :=
  match e with
  | AxiosErrorObj a => err_code a
  | _ => JUndefined
  end.

Definition thrown_response (e : Thrown) : option AxiosResponse :=
  match e with
  | AxiosErrorObj a => err_response a
  | _ => None
  end.

Definition thrown_request (e : Thrown) : bool :=
  match e with
  | AxiosErrorObj a => err_request a
  | _ => false
  end.

(** ** The environment and the state the code runs in *)

Inductive LogLevel : Type := LevelLog | LevelError.

Inductive LogArg : Type :=
| LogStr (s : jstring)
| LogValue (v : JsValue)
| LogPayload (p : ChatPayload)
| LogThrown (e : Thrown).

(** What the program cannot decide: the outcome of the n-th HTTP
    request it issues and the time the n-th reading of the clock
    gives. *)
Record World : Type := {
  network : nat -> Request -> AxiosOutcome;
  clock : nat -> Z
}.

Record State : Type := {
  (** state of App *)
  chatHistory : list Message;
  settings : Settings;
  isLoading : bool;
  (** state of ChatInterface *)
  inputMessage : jstring;
  isTyping : bool;
  (** effects outside React *)
  requests : list Request;
  console : list (LogLevel * list LogArg);
  clockReads : nat
}.

Inductive Outcome (A : Type) : Type :=
| Returned (a : A)
| Threw (e : Thrown).
Arguments Returned {A} a.
Arguments Threw {A} e.

(** A computation reads the world, updates the state, and returns or
    throws. *)
Definition Js (A : Type) : Type := World -> State -> Outcome A * State.

#[global] Instance Js_ret : MRet Js := fun A a _ s => (Returned a, s).

#[global] Instance Js_bind : MBind Js := fun A B k c w s =>
  match c w s with
  | (Returned a, s1) => k a w s1
  | (Threw e, s1) => (Threw e, s1)
  end.

#[global] Instance Js_throw : MThrow Thrown Js := fun A e _ s => (Threw e, s).

(** [try { c } catch (error) { h error }] *)
Definition try_catch {A : Type} (c : Js A) (h : Thrown -> Js A) : Js A := fun w s =>
  match c w s with
  | (Returned a, s1) => (Returned a, s1)
  | (Threw e, s1) => h e w s1
  end.

(** [try { c } finally { f }] *)
Definition try_finally {A : Type} (c : Js A) (f : Js unit) : Js A := fun w s =>
  match c w s with
  | (r, s1) =>
      match f w s1 with
      | (Returned _, s2) => (r, s2)
      | (Threw e, s2) => (Threw e, s2)
      end
  end.

Definition modify (f : State -> State) : Js unit := fun _ s => (Returned tt, f s).

Definition set_chatHistory (h : list Message) (s : State) : State :=
  {| chatHistory := h; settings := settings s; isLoading := isLoading s;
     inputMessage := inputMessage s; isTyping := isTyping s;
     requests := requests s; console := console s; clockReads := clockReads s |}.

Definition set_settings (x : Settings) (s : State) : State :=
  {| chatHistory := chatHistory s; settings := x; isLoading := isLoading s;
     inputMessage := inputMessage s; isTyping := isTyping s;
     requests := requests s; console := console s; clockReads := clockReads s |}.

Definition set_isLoading (b : bool) (s : State) : State :=
  {| chatHistory := chatHistory s; settings := settings s; isLoading := b;
     inputMessage := inputMessage s; isTyping := isTyping s;
     requests := requests s; console := console s; clockReads := clockReads s |}.

Definition set_inputMessage (x : jstring) (s : State) : State :=
  {| chatHistory := chatHistory s; settings := settings s; isLoading := isLoading s;
     inputMessage := x; isTyping := isTyping s;
     requests := requests s; console := console s; clockReads := clockReads s |}.

Definition set_isTyping (b : bool) (s : State) : State :=
  {| chatHistory := chatHistory s; settings := settings s; isLoading := isLoading s;
     inputMessage := inputMessage s; isTyping := b;
     requests := requests s; console := console s; clockReads := clockReads s |}.

Definition set_requests (r : list Request) (s : State) : State :=
  {| chatHistory := chatHistory s; settings := settings s; isLoading := isLoading s;
     inputMessage := inputMessage s; isTyping := isTyping s;
     requests := r; console := console s; clockReads := clockReads s |}.

Definition set_console (c : list (LogLevel * list LogArg)) (s : State) : State :=
  {| chatHistory := chatHistory s; settings := settings s; isLoading := isLoading s;
     inputMessage := inputMessage s; isTyping := isTyping s;
     requests := requests s; console := c; clockReads := clockReads s |}.

Definition set_clockReads (n : nat) (s : State) : State :=
  {| chatHistory := chatHistory s; settings := settings s; isLoading := isLoading s;
     inputMessage := inputMessage s; isTyping := isTyping s;
     requests := requests s; console := console s; clockReads := n |}.

(** [console.log(...)] and [console.error(...)] *)
Definition console_log (args : list LogArg) : Js unit :=
  modify (fun s => set_console (console s ++ [(LevelLog, args)]) s).

Definition console_error (args : list LogArg) : Js unit :=
  modify (fun s => set_console (console s ++ [(LevelError, args)]) s).

(** [Date.now()] *)
Definition Date_now : Js Z := fun w s =>
  (Returned (clock w (clockReads s)), set_clockReads (S (clockReads s)) s).

(** [await apiClient.request(req)]: the request is recorded, and the
    promise resolves or rejects as the network decides. *)
Definition axios_request (req : Request) : Js AxiosResponse := fun w s =>
  let s1 := set_requests (requests s ++ [req]) s in
  match network w (length (requests s)) req with
  | Resolved r => (Returned r, s1)
  | Rejected e => (Threw (AxiosErrorObj e), s1)
  end.

(** [this.apiClient.post(url, payload)] *)
Definition apiClient_post (url : jstring) (payload : ChatPayload) : Js AxiosResponse :=
  axios_request {| req_method := POST; req_url := url; req_body := Some payload |}.

(** [this.apiClient.get(url)] *)
Definition apiClient_get (url : jstring) : Js AxiosResponse :=
  axios_request {| req_method := GET; req_url := url; req_body := None |}.

(** A property read that throws a TypeError on undefined and null. *)
Definition read_prop (v : JsValue) (k : jstring) : Js JsValue :=
  match get_prop v k with
  | Some x => mret x
  | None => mthrow TypeErrorObj
  end.

(** ** src/services/chatService.js *)

Section ChatService.
Context {host : JsHost}.

(** [formatChatHistory(chatHistory)] *)
Definition formatChatHistory (chatHistory : list Message) : list ConversationTurn :=
  map (fun message =>
         {| role := if strict_eq_str (msg_type message) (lit "user")
                    then lit "user" else lit "assistant";
            content := msg_content message;
            timestamp := msg_timestamp message |})
      chatHistory.

Definition chatPayload (message : jstring) (chatHistory : list Message)
    (settings : Settings) : ChatPayload :=
  {| p_message := message;
     p_chat_history := formatChatHistory chatHistory;
     p_settings := {| ps_model := model settings;
                      ps_temperature := temperature settings;
                      ps_max_tokens := maxTokens settings;
                      ps_enable_rag := enableRAG settings |} |}.

Definition timeoutMessage : jstring :=
  lit "Request timed out. The AI is taking longer than expected to respond. Please try again.".

Definition networkMessage : jstring :=
  lit "Network error: Unable to connect to the server. Please check your connection.".

Definition unexpectedMessage : jstring :=
  lit "An unexpected error occurred. Please try again.".

(** The template [`Server error: ${error.response.data?.message || error.response.statusText}`] *)
Definition serverErrorMessage (r : AxiosResponse) : jstring :=
  lit "Server error: "
  ++ to_string (js_or (get_prop_opt (data r) (lit "message")) (JStr (statusText r))).

(** The catch block of [sendMessage]. *)
Definition sendMessage_catch (error : Thrown) : Js ChatResult :=
  console_error [LogStr (lit "Frontend: Chat API error:"); LogThrown error];;
  if strict_eq_str (thrown_code error) (lit "ECONNABORTED") then
    mthrow (ErrorObj timeoutMessage)
  else
    match thrown_response error with
    | Some r => mthrow (ErrorObj (serverErrorMessage r))
    | None =>
        if thrown_request error then mthrow (ErrorObj networkMessage)
        else mthrow (ErrorObj unexpectedMessage)
    end.

(** [async sendMessage(message, chatHistory, settings)] *)
Definition sendMessage (message : jstring) (chatHistory : list Message)
    (settings : Settings) : Js ChatResult :=
  try_catch
    (console_log [LogStr (lit "Frontend: Sending message to backend...")];;
     let payload := chatPayload message chatHistory settings in
     console_log [LogStr (lit "Frontend: Request payload:"); LogPayload payload];;
     response ← apiClient_post (lit "/api/chat") payload;
     console_log [LogStr (lit "Frontend: Received response from backend:");
                  LogValue (data response)];;
     r ← read_prop (data response) (lit "response");
     srcs ← read_prop (data response) (lit "sources");
     meta ← read_prop (data response) (lit "metadata");
     mret {| res_content := r;
             res_sources := js_or srcs (JArr []);
             res_metadata := js_or meta (JObj []) |})
    sendMessage_catch.

Definition defaultModels : JsValue :=
  JArr [ JObj [(lit "id", JStr (lit "phi:2.7b")); (lit "name", JStr (lit "Phi-2.7B (Ollama)"))];
         JObj [(lit "id", JStr (lit "llama2:7b")); (lit "name", JStr (lit "Llama2-7B (Ollama)"))];
         JObj [(lit "id", JStr (lit "mistral:7b")); (lit "name", JStr (lit "Mistral-7B (Ollama)"))] ].

(** [async getAvailableModels()] *)
Definition getAvailableModels : Js JsValue :=
  try_catch
    (response ← apiClient_get (lit "/api/models");
     read_prop (data response) (lit "models"))
    (fun error =>
       console_error [LogStr (lit "Models API error:"); LogThrown error];;
       mret defaultModels).

End ChatService.

(** ** App.js *)

Definition initialSettings : Settings :=
  {| model := lit "mistral:7b";
     temperature := 7 # 10;
     maxTokens := 1000;
     enableRAG := true |}.

(** The state after mounting: the chat history is the one saved in
    localStorage (empty when none was saved). *)
Definition initialState (savedHistory : list Message) : State :=
  {| chatHistory := savedHistory;
     settings := initialSettings;
     isLoading := false;
     inputMessage := [];
     isTyping := false;
     requests := [];
     console := [];
     clockReads := 0 |}.

(** [addMessage(message)]: [setChatHistory(prev => [...prev, message])] *)
Definition addMessage (message : Message) : Js unit :=
  modify (fun s => set_chatHistory (chatHistory s ++ [message]) s).

(** [clearChat()] *)
Definition clearChat : Js unit := modify (set_chatHistory []).

(** The object passed to [updateSettings]: the properties it sets. *)
Record SettingsPatch : Type := {
  new_model : option jstring;
  new_temperature : option Q;
  new_maxTokens : option Z;
  new_enableRAG : option bool
}.

(** [{ ...prev, ...newSettings }] *)
Definition spread (prev : Settings) (newSettings : SettingsPatch) : Settings :=
  {| model := default (model prev) (new_model newSettings);
     temperature := default (temperature prev) (new_temperature newSettings);
     maxTokens := default (maxTokens prev) (new_maxTokens newSettings);
     enableRAG := default (enableRAG prev) (new_enableRAG newSettings) |}.

(** [updateSettings(newSettings)] *)
Definition updateSettings (newSettings : SettingsPatch) : Js unit :=
  modify (fun s => set_settings (spread (settings s) newSettings) s).

Definition setIsLoading (b : bool) : Js unit := modify (set_isLoading b).

(** ** src/components/Sidebar.js: SettingsPanel *)

(** An [<input type="range">]: the browser keeps its value on the
    steps [min + k * step] and never above [max]. *)
Record RangeInput : Type := {
  range_min : Q;
  range_max : Q;
  range_step : Q
}.

(** The number denoted by [e.target.value] when the thumb is put on
    step [k]. *)
Definition range_value (r : RangeInput) (k : nat) : Q :=
  let v := (range_min r + inject_Z (Z.of_nat k) * range_step r)%Q in
  if Qle_bool v (range_max r) then v else range_max r.

Definition temperatureRange : RangeInput :=
  {| range_min := 0; range_max := 1; range_step := 1 # 10 |}.

Definition maxTokensRange : RangeInput :=
  {| range_min := 100; range_max := 2000; range_step := 100 |}.

(** The [<option>] values of the model [<select>]. *)
Inductive ModelOption : Type := OptMistral | OptLlama2 | OptPhi.

Definition option_value (o : ModelOption) : jstring :=
  match o with
  | OptMistral => lit "mistral:7b"
  | OptLlama2 => lit "llama2:7b"
  | OptPhi => lit "phi:2.7b"
  end.

(** [parseFloat] of the decimal text of a number is that number. *)
Definition parseFloat (q : Q) : Q := q.

(** What the user can do in the settings panel. *)
Inductive PanelEvent : Type :=
| SelectModel (o : ModelOption)
| SlideTemperature (k : nat)
| SlideMaxTokens (k : nat)
| ToggleRAG.

(** The four [onChange] / [onClick] handlers of SettingsPanel; the
    argument [settings] is the prop of that name. *)
Definition SettingsPanel_handle (settings : Settings) (e : PanelEvent) : Js unit :=
  match e with
  | SelectModel o =>
      updateSettings
        {| new_model := Some (option_value o); new_temperature := None;
           new_maxTokens := None; new_enableRAG := None |}
  | SlideTemperature k =>
      updateSettings
        {| new_model := None;
           new_temperature := Some (parseFloat (range_value temperatureRange k));
           new_maxTokens := None; new_enableRAG := None |}
  | SlideMaxTokens k =>
      updateSettings
        {| new_model := None; new_temperature := None;
           new_maxTokens := Some (parseInt (range_value maxTokensRange k));
           new_enableRAG := None |}
  | ToggleRAG =>
      updateSettings
        {| new_model := None; new_temperature := None; new_maxTokens := None;
           new_enableRAG := Some (negb (enableRAG settings)) |}
  end.

(** ** src/components/MessageInput.js *)

(** [handleSend()], with the props [value], [disabled] and [onSend]. *)
Definition handleSend (value : jstring) (disabled : bool)
    (onSend : jstring -> Js unit) : Js unit :=
  if truthy (JStr (trim value)) && negb disabled then onSend value else mret tt.

(** ** Numbers

    A Number is a binary64 value, and an arithmetic operation gives
    the Number nearest to its exact result, a tie going to the even
    significand.  The values of this program stay far below 2^1024,
    so overflow to Infinity is left out. *)

(** Round to the nearest integer, ties to the even one. *)
Definition roundTiesToEven (q : Q) : Z :=
  let f := Qfloor q in
  match (q - inject_Z f ?= 1 # 2)%Q with
  | Lt => f
  | Gt => f + 1
  | Eq => if Z.even f then f else f + 1
  end.

(** 2^e as a rational. *)
Definition pow2 (e : Z) : Q := Qpower 2 e.

(** The exponent of the last place of the binary64 values around
    [q]: 53 significant bits, and 2^-1074 for all values below
    2^-1022. *)
Definition lastPlace (q : Q) : Z :=
  Z.max (-1074) (Z.log2 (Qfloor (Qabs q * pow2 1074)) - 1126).

(** The Number for the real [q]. *)
Definition toDouble (q : Q) : Q :=
  (inject_Z (roundTiesToEven (q / pow2 (lastPlace q))) * pow2 (lastPlace q))%Q.
Arguments toDouble : simpl never.

(** ** src/components/ChatInterface.js *)

Section ChatInterface.
Context {host : JsHost}.

(** [new Date().toISOString()] *)
Definition Date_toISOString : Js jstring :=
  t ← Date_now; mret (DateToISOString t).

Definition setInputMessage (x : jstring) : Js unit := modify (set_inputMessage x).

Definition setIsTyping (b : bool) : Js unit := modify (set_isTyping b).

Definition genericErrorText : jstring :=
  lit "Sorry, I encountered an error. Please try again.".

(** [handleSendMessage(message)], with the props [chatHistory] and
    [settings] of the render the handler belongs to. *)
Definition handleSendMessage (chatHistory : list Message) (settings : Settings)
    (message : jstring) : Js unit :=
  if negb (truthy (JStr (trim message))) then mret tt
  else
    id1 ← Date_now;
    ts1 ← Date_toISOString;
    let userMessage :=
      {| msg_id := JNum (inject_Z id1);
         msg_type := JStr (lit "user");
         msg_content := JStr message;
         msg_sources := JUndefined;
         msg_timestamp := JStr ts1 |} in
    addMessage userMessage;;
    setInputMessage [];;
    setIsTyping true;;
    setIsLoading true;;
    id2 ← Date_now;
    ts2 ← Date_toISOString;
    let processingMessage :=
      {| msg_id := JNum (toDouble (inject_Z id2 + (1 # 2)));
         msg_type := JStr (lit "processing");
         msg_content := JStr (lit "Processing your request...");
         msg_sources := JUndefined;
         msg_timestamp := JStr ts2 |} in
    addMessage processingMessage;;
    try_finally
      (try_catch
         (response ← sendMessage message chatHistory settings;
          id3 ← Date_now;
          ts3 ← Date_toISOString;
          let botMessage :=
            {| msg_id := JNum (toDouble (inject_Z id3 + 1));
               msg_type := JStr (lit "bot");
               msg_content := res_content response;
               msg_sources := js_or (res_sources response) (JArr []);
               msg_timestamp := JStr ts3 |} in
          addMessage botMessage)
         (fun error =>
            id4 ← Date_now;
            ts4 ← Date_toISOString;
            let errorMessage :=
              {| msg_id := JNum (toDouble (inject_Z id4 + 1));
                 msg_type := JStr (lit "error");
                 msg_content := JStr genericErrorText;
                 msg_sources := JUndefined;
                 msg_timestamp := JStr ts4 |} in
            addMessage errorMessage;;
            console_error [LogStr (lit "Chat error:"); LogThrown error]))
      (setIsTyping false;; setIsLoading false).

End ChatInterface.

(** ** src/components/Message.js *)

(** What the Sources block of a rendered message is. *)
Inductive SourcesSection : Type :=
| NoSourcesSection
| SourcesList (links : list (JsValue * JsValue))
| RenderError.

(** One link of the block: its [href] is [source.url], its text
    [source.title || source.url]. *)
Definition renderSource (source : JsValue) : option (JsValue * JsValue) :=
  url ← get_prop source (lit "url");
  title ← get_prop source (lit "title");
  Some (url, js_or title url).

Section MessageView.
Context {host : JsHost}.

(** The guard [type === 'bot' && sources && sources.length > 0]; the
    length is read of a truthy value only, so the read cannot throw. *)
Definition sourcesGuard (message : Message) : bool :=
  strict_eq_str (msg_type message) (lit "bot")
  && truthy (msg_sources message)
  && js_gt_zero (get_prop_opt (msg_sources message) (lit "length")).

(** The Sources block of [Message]: [sources.map(...)] under the
    guard; calling [map] on anything but an array is a TypeError. *)
Definition Message_sources (message : Message) : SourcesSection :=
  if sourcesGuard message then
    match msg_sources message with
    | JArr l =>
        match mapM renderSource l with
        | Some links => SourcesList links
        | None => RenderError
        end
    | _ => RenderError
    end
  else NoSourcesSection.

End MessageView.

(** ** App.js: the events of the user interface

    The events of the chat view and of the settings panel: typing in
    the input box, sending, acting on the settings panel, clearing the
    chat.  Nothing else in App reaches [updateSettings] or the chat
    service. *)

Inductive UiEvent : Type :=
| EvType (text : jstring)
| EvSend
| EvPanel (e : PanelEvent)
| EvClearChat.

Section App.
Context {host : JsHost}.

(** The handler App's render tree attaches to each event; every
    handler closes over the state of the render it belongs to. *)
Definition dispatch (e : UiEvent) : Js unit := fun w s =>
  match e with
  | EvType text => setInputMessage text w s
  | EvSend =>
      handleSend (inputMessage s) (isLoading s)
        (handleSendMessage (chatHistory s) (settings s)) w s
  | EvPanel p => SettingsPanel_handle (settings s) p w s
  | EvClearChat => clearChat w s
  end.

(** The state after a sequence of events. *)
Definition after (w : World) (es : list UiEvent) (s : State) : State :=
  fold_left (fun s e => snd (dispatch e w s)) es s.

End App.

(** ** App.js: the login state and the views

    Besides the chat history, the settings and [isLoading], App keeps
    who is logged in, whether the sidebar is open, and which view
    stands in the place of the chat: FaceRecognition when
    [showFaceRecognition] is set, else TextExtraction when
    [showTextExtraction] is set, else ChatInterface. *)

Record AppState : Type := {
  chatState : State;
  currentUser : JsValue;
  sidebarOpen : bool;
  showFaceRecognition : bool;
  showTextExtraction : bool
}.

Definition initialAppState (savedHistory : list Message) : AppState :=
  {| chatState := initialState savedHistory;
     currentUser := JNull;
     sidebarOpen := false;
     showFaceRecognition := false;
     showTextExtraction := false |}.





Section AppCallbacks.
Context {host : JsHost}.






End AppCallbacks.

(** ** chatService.js: the health check *)

(** [async testConnection()] *)
Definition testConnection : Js bool :=
  try_catch
    (response ← apiClient_get (lit "/api/health");
     st ← read_prop (data response) (lit "status");
     mret (strict_eq_str st (lit "healthy")))
    (fun error =>
       console_error [LogStr (lit "Health check error:"); LogThrown error];;
       mret false).

(** ** MessageInput.js: the key handler and the send button *)

(** What [handleKeyPress] reads of the keyboard event. *)
Record KeyEvent : Type := {
  key : jstring;
  shiftKey : bool
}.

(** [handleKeyPress(e)]: whether [e.preventDefault()] is called, and
    what runs after it. *)
Definition handleKeyPress (value : jstring) (disabled : bool)
    (onSend : jstring -> Js unit) (e : KeyEvent) : bool * Js unit :=
  if jstring_eqb (key e) (lit "Enter") && negb (shiftKey e)
  then (true, handleSend value disabled onSend)
  else (false, mret tt).

(** The [disabled] attribute of the send button:
    [!value.trim() || disabled]. *)
Definition sendButton_disabled (value : jstring) (disabled : bool) : bool :=
  negb (truthy (JStr (trim value))) || disabled.

(** ** src/components/MessageList.js *)

Definition welcomeText : jstring :=
  join [0x000A%N]
    [ lit "Hello! I'm your AI assistant powered by RAG (Retrieval-Augmented Generation). I can help you with various tasks and provide information from my knowledge base. ";
      [];
      lit "**What I can do:**";
      lit "- Answer questions with accurate information";
      lit "- Provide detailed explanations";
      lit "- Help with research and analysis";
      lit "- Assist with coding and technical topics";
      [];
      lit "**How to use:**";
      lit "- Simply type your question or request";
      lit "- I'll search through my knowledge base to find relevant information";
      lit "- You can adjust settings in the sidebar to customize my responses";
      [];
      lit "Feel free to ask me anything!" ].

Section MessageList.
Context {host : JsHost}.

(** [displayMessages]: the welcome message is built on every render,
    with the time of the render, and shown when there is no message. *)
Definition displayMessages (messages : list Message) : Js (list Message) :=
  ts ← Date_toISOString;
  let welcomeMessage :=
    {| msg_id := JStr (lit "welcome");
       msg_type := JStr (lit "bot");
       msg_content := JStr welcomeText;
       msg_sources := JUndefined;
       msg_timestamp := JStr ts |} in
  mret (if Nat.eqb (length messages) 0 then [welcomeMessage] else messages).

End MessageList.

(** ** src/components/Sidebar.js: ChatHistory *)

(** An entry of the history tab; [botMessage] is [None] for the
    [null] the source stores when there is no next message. *)
Record Conversation : Type := {
  conv_id : nat;
  userMessage : Message;
  botMessage : option Message
}.

(** The callback of [chatHistory.reduce(..., [])]. *)
Definition conversations_step (chatHistory : list Message)
    (acc : list Conversation) (entry : nat * Message) : list Conversation :=
  let (index, message) := entry in
  if Nat.eqb (index mod 2) 0 then
    acc ++ [{| conv_id := index;
               userMessage := message;
               botMessage := chatHistory !! (index + 1)%nat |}]
  else acc.

(** [conversations]: the messages grouped by position. *)
Definition conversations (chatHistory : list Message) : list Conversation :=
  fold_left (conversations_step chatHistory) (imap pair chatHistory) [].

(** The line shown for an entry:
    [conversation.userMessage?.content || 'User message']. *)
Definition conversation_title (c : Conversation) : JsValue :=
  js_or (msg_content (userMessage c)) (JStr (lit "User message")).

(** ** Further notions used in the statements *)

(** The request [testConnection] makes. *)
Definition healthRequest : Request :=
  {| req_method := GET; req_url := lit "/api/health"; req_body := None |}.

(** Undefined or null. *)
Definition nullish (v : JsValue) : Prop := v = JUndefined \/ v = JNull.

Definition is_log (entry : LogLevel * list LogArg) : Prop := fst entry = LevelLog.

(** The two states agree on the state of the components and on the
    number of clock readings. *)
Definition reactState_unchanged (s s' : State) : Prop :=
  chatHistory s' = chatHistory s
  /\ settings s' = settings s
  /\ isLoading s' = isLoading s
  /\ inputMessage s' = inputMessage s
  /\ isTyping s' = isTyping s
  /\ clockReads s' = clockReads s.

(** ** chatService.js: the mock response and the upload *)

(** [s.startsWith(p)] *)
Fixpoint startsWith (s p : jstring) {struct p} : bool :=
  match p, s with
  | [], _ => true
  | a :: p', b :: s' => N.eqb a b && startsWith s' p'
  | _ :: _, [] => false
  end.

(** [s.includes(sub)] *)
Fixpoint includes (s sub : jstring) : bool :=
  startsWith s sub
  || match s with
     | [] => false
     | _ :: s' => includes s' sub
     end.

Definition mockResponses_hello : jstring :=
  lit "Hello! I'm your AI assistant. How can I help you today?".

Definition mockResponses_help : jstring :=
  lit "I can help you with various tasks including answering questions, providing explanations, and assisting with research. What would you like to know?".

(** The template of [mockResponses.default]; the message stands
    between two double quotes (code unit 0x22). *)
Definition mockResponses_default (message : jstring) : jstring :=
  lit "I understand you said: " ++ [0x22%N] ++ message ++ [0x22%N]
  ++ lit ". This is a mock response since the backend is not connected. In a real implementation, this would be processed by the RAG system to provide accurate, contextual responses based on the knowledge base.".

(** The three results of [Math.random()] in one call of
    [getMockResponse], in the order of the calls; every product and
    sum computed from them is rounded to a Number. *)
Record MockDraws : Type := {
  delay_draw : Q;
  time_draw : Q;
  tokens_draw : Q
}.

Section Mock.
(** [String.prototype.toLowerCase] *)
Variable toLowerCase : jstring -> jstring.

(** [async getMockResponse(message)]: the delay of the timer it waits
    for, in milliseconds, and the object it resolves to. *)
Definition getMockResponse (message : jstring) (d : MockDraws) : Q * ChatResult :=
  let lowerMessage := toLowerCase message in
  let response :=
    if includes lowerMessage (lit "hello") || includes lowerMessage (lit "hi")
    then mockResponses_hello
    else if includes lowerMessage (lit "help") then mockResponses_help
    else mockResponses_default message in
  (toDouble (1000 + toDouble (delay_draw d * 2000)),
   {| res_content := JStr response;
      res_sources :=
        JArr [JObj [(lit "title", JStr (lit "Mock Source"));
                    (lit "url", JStr (lit "https://example.com"));
                    (lit "snippet",
                     JStr (lit "This is a mock source for demonstration purposes."))]];
      res_metadata :=
        JObj [(lit "model", JStr (lit "mock-model"));
              (lit "processing_time",
               JNum (toDouble (toDouble (time_draw d * 2) + (1 # 2))));
              (lit "tokens_used",
               JNum (toDouble
                       (inject_Z (Qfloor (toDouble (tokens_draw d * 100))) + 50)))] |}).

End Mock.

(** A file as the browser hands it over. *)
Record File : Type := {
  file_name : jstring;
  file_type : jstring;
  file_size : Z
}.

(** The entry of the request log for a POST whose body is not a chat
    payload (form data, the JSON bodies of the face service): the log
    keeps the method and the path of such a request, [req_body] being
    the place of chat payloads only. *)
Definition post_entry (url : jstring) : Request :=
  {| req_method := POST; req_url := url; req_body := None |}.

Section Upload.
(** What the network answers to the n-th request when it posts a
    file to /api/upload as multipart form data. *)
Variable upload_network : nat -> File -> AxiosOutcome.

(** [this.apiClient.post('/api/upload', formData, ...)], with the
    client [sendMessage] uses: the request is recorded like every
    other one, and resolves or rejects as the network decides. *)
Definition upload_post (file : File) : Js AxiosResponse := fun _ s =>
  let s1 := set_requests (requests s ++ [post_entry (lit "/api/upload")]) s in
  match upload_network (length (requests s)) file with
  | Resolved r => (Returned r, s1)
  | Rejected e => (Threw (AxiosErrorObj e), s1)
  end.

(** [async uploadDocument(file)] *)
Definition uploadDocument (file : File) : Js JsValue :=
  try_catch
    (response ← upload_post file;
     mret (data response))
    (fun error =>
       console_error [LogStr (lit "Document upload error:"); LogThrown error];;
       mthrow (ErrorObj (lit "Failed to upload document. Please try again."))).

End Upload.

(** ** The face recognition service (faceRecognitionService.js) *)

Module FaceRecognitionService.

(** [async getRegisteredUsers()] *)
Definition getRegisteredUsers : Js JsValue :=
  try_catch
    (response ← apiClient_get (lit "/api/face/users");
     mret (data response))
    (fun error =>
       console_error [LogStr (lit "FaceRecognition: Get users error:"); LogThrown error];;
       mthrow (ErrorObj (lit "Failed to fetch registered users."))).

(** The part of the string before the first comma, and the rest. *)
Fixpoint upToComma (s : jstring) : jstring * jstring :=
  match s with
  | [] => ([], [])
  | c :: s' =>
      if N.eqb c 0x2C then ([], s)
      else let (a, b) := upToComma s' in (c :: a, b)
  end.

(** [reader.result.split(',')[1]], the value [imageToBase64] resolves
    to for a File; [None] is undefined. *)
Definition imageToBase64_result (result : jstring) : option jstring :=
  match snd (upToComma result) with
  | [] => None
  | _ :: rest => Some (fst (upToComma rest))
  end.

Section Calls.
(** What the network answers to the n-th request when it posts a
    JSON body to a path. *)
Variable face_network : nat -> jstring -> JsValue -> AxiosOutcome.


Context {host : JsHost}.




End Calls.
End FaceRecognitionService.

(** ** textExtractionService.js and TextExtraction.js *)

Module TextExtraction.

(** [base64.replace(/^data:[^,]+,/, '')], the [image_data] that
    [extractTextFromFile] posts: a leading [data:], at least one
    character other than a comma, and the comma after them are
    removed. *)
Definition image_data (base64 : jstring) : jstring :=
  if startsWith base64 (lit "data:") then
    match FaceRecognitionService.upToComma (drop 5 base64) with
    | (_ :: _, _ :: rest) => rest
    | _ => base64
    end
  else base64.

Record OcrOptions : Type := {
  engine : jstring;
  preprocess : bool;
  detect_regions : bool
}.

(** The state of the TextExtraction component. *)
Record State : Type := {
  selectedFile : option File;
  previewUrl : option jstring;
  extractedText : jstring;
  isProcessing : bool;
  error : jstring;
  ocrOptions : OcrOptions;
  extractionResult : JsValue;
  availableEngines : JsValue;
  serviceStatus : JsValue
}.

Definition initialState : State :=
  {| selectedFile := None;
     previewUrl := None;
     extractedText := [];
     isProcessing := false;
     error := [];
     ocrOptions := {| engine := lit "auto"; preprocess := true; detect_regions := false |};
     extractionResult := JNull;
     availableEngines := JArr [];
     serviceStatus := JNull |}.

Definition setError (e : jstring) (st : State) : State :=
  {| selectedFile := selectedFile st; previewUrl := previewUrl st;
     extractedText := extractedText st; isProcessing := isProcessing st;
     error := e; ocrOptions := ocrOptions st;
     extractionResult := extractionResult st;
     availableEngines := availableEngines st; serviceStatus := serviceStatus st |}.

Definition maxFileSize : Z := 10 * 1024 * 1024.

Section Handlers.
(** [URL.createObjectURL] *)
Variable createObjectURL : File -> jstring.

(** [handleFileSelect(event)], with [event.target.files[0]]. *)
Definition handleFileSelect (file : option File) (st : State) : State :=
  match file with
  | None => st
  | Some f =>
      if negb (startsWith (file_type f) (lit "image/")) then
        setError (lit "Please select an image file (JPG, PNG, BMP, etc.)") st
      else if Z.ltb maxFileSize (file_size f) then
        setError (lit "File size too large. Please select an image smaller than 10MB.") st
      else
        {| selectedFile := Some f;
           previewUrl := Some (createObjectURL f);
           extractedText := [];
           isProcessing := isProcessing st;
           error := [];
           ocrOptions := ocrOptions st;
           extractionResult := JNull;
           availableEngines := availableEngines st;
           serviceStatus := serviceStatus st |}
  end.

End Handlers.

(** [handleClear()]; the reset of the file input element itself is
    not part of the state. *)
Definition handleClear (st : State) : State :=
  {| selectedFile := None;
     previewUrl := None;
     extractedText := [];
     isProcessing := isProcessing st;
     error := [];
     ocrOptions := ocrOptions st;
     extractionResult := JNull;
     availableEngines := availableEngines st;
     serviceStatus := serviceStatus st |}.

(** The [disabled] attribute of the Extract button:
    [!selectedFile || isProcessing]. *)
Definition extractButton_disabled (st : State) : bool :=
  match selectedFile st with
  | None => true
  | Some _ => isProcessing st
  end.

(** The name [handleDownloadText] gives the download, from the text
    of [new Date().toISOString()]:
    [iso.slice(0, 19).replace(/:/g, '-')] between a prefix and
    [.txt]. *)
Definition downloadName (iso : jstring) : jstring :=
  lit "extracted_text_"
  ++ map (fun c => if N.eqb c 0x3A then 0x2D%N else c) (take 19 iso)
  ++ lit ".txt".

End TextExtraction.

(** The entries [reduce] adds for the messages [l] that sit at the
    positions [n], [n + 1], ... of the history [h]. *)
Fixpoint entries_from (h : list Message) (n : nat) (l : list Message) : list Conversation :=
  match l with
  | [] => []
  | m :: l' =>
      (if Nat.eqb (n mod 2) 0
       then [{| conv_id := n; userMessage := m; botMessage := h !! (n + 1)%nat |}]
       else [])
      ++ entries_from h (S n) l'
  end.

(** The request [getRegisteredUsers] makes. *)
Definition usersRequest : Request :=
  {| req_method := GET; req_url := lit "/api/face/users"; req_body := None |}.

(** The real [q] is a Number: rounding leaves it as it is. *)
Definition isNumber (q : Q) : Prop := (toDouble q == q)%Q.

(** A result of [Math.random()]: a Number from 0 on and below 1. *)
Definition randomDraw (x : Q) : Prop := isNumber x /\ (0 <= x)%Q /\ (x < 1)%Q.

(** The largest Number below 1. *)
Definition largestDraw : Q := (1 - pow2 (-53))%Q.

(** The files [handleFileSelect] takes. *)
Definition acceptedFile (f : File) : Prop :=
  startsWith (file_type f) (lit "image/") = true /\ file_size f <= 10485760.

Definition commaFree (s : jstring) : Prop := Forall (fun c => c <> 0x2C%N) s.

(** Lower case on the letters A to Z, for the examples. *)
Definition asciiLower (s : jstring) : jstring :=
  map (fun c => if (0x41 <=? c)%N && (c <=? 0x5A)%N then (c + 0x20)%N else c) s.

(** ** The retrieval contract: VectorIndex (specification, section 4.3) *)

Module VectorIndex.

(** Modelled from the spec: the Chunk record of the data model, whose
    source (backend/chatbot_service.py) is not part of the sources
    at hand. *)
Record Chunk : Type := {
  chunk_id : nat;
  document_id : nat;
  sequence_index : nat;
  text : string;
  char_span : nat * nat
}.

(** Modelled from the spec: an IndexEntry, a vector stored with the
    chunk it embeds. *)
Record IndexEntry : Type := {
  vector : list Q;
  chunk : Chunk
}.

(** Modelled from the spec: a RetrievedChunk. *)
Record RetrievedChunk : Type := {
  retrieved : Chunk;
  similarity_score : Q
}.

Inductive SearchError : Type := DimensionMismatch.

Definition VectorIndex : Type := list IndexEntry.

Definition dot (a b : list Q) : Q :=
  fold_right Qplus 0%Q (zip_with Qmult a b).

Section Search.
(** The square root of the numeric library. *)
Variable sqrt : Q -> Q.

Definition norm (a : list Q) : Q := sqrt (dot a a).

(** Modelled from the spec: "score = (a.b) / (|a| * |b|); if either
    vector has zero norm, define score = 0". *)
Definition cosine_similarity (a b : list Q) : Q :=
  if Qeq_bool (norm a) 0 || Qeq_bool (norm b) 0 then 0%Q
  else (dot a b / (norm a * norm b))%Q.

(** Modelled from the spec: results are "sorted descending"; "ties in
    score: break by ascending chunk.sequence_index then chunk_id". *)
Definition ranks_before (x y : RetrievedChunk) : bool :=
  if Qeq_bool (similarity_score x) (similarity_score y) then
    if Nat.eqb (sequence_index (retrieved x)) (sequence_index (retrieved y)) then
      Nat.leb (chunk_id (retrieved x)) (chunk_id (retrieved y))
    else Nat.ltb (sequence_index (retrieved x)) (sequence_index (retrieved y))
  else Qle_bool (similarity_score y) (similarity_score x).

Definition score_entry (query_vector : list Q) (e : IndexEntry) : RetrievedChunk :=
  {| retrieved := chunk e;
     similarity_score := cosine_similarity query_vector (vector e) |}.

(** Modelled from the spec: "search is a brute-force scan over all
    entries computing cosine similarity, sorted descending, truncated
    to top_k, then filtered to entries with score >= min_score"; a
    stored vector of another dimension than the query "fails fast with
    DimensionMismatch". *)
Definition search (index : VectorIndex) (query_vector : list Q) (top_k : nat)
    (min_score : Q) : SearchError + list RetrievedChunk :=
  if forallb (fun e => Nat.eqb (length (vector e)) (length query_vector)) index then
    let scored := map (score_entry query_vector) index in
    let ranked := merge_sort (fun x y => Is_true (ranks_before x y)) scored in
    let truncated := take top_k ranked in
    inr (List.filter (fun r => Qle_bool min_score (similarity_score r)) truncated)
  else inl DimensionMismatch.

End Search.
End VectorIndex.

(** ** Notions used in the statements *)

(** The request [sendMessage] posts. *)
Definition chatRequest (message : jstring) (chatHistory : list Message)
    (settings : Settings) : Request :=
  {| req_method := POST;
     req_url := lit "/api/chat";
     req_body := Some (chatPayload message chatHistory settings) |}.

(** The request [getAvailableModels] makes. *)
Definition modelsRequest : Request :=
  {| req_method := GET; req_url := lit "/api/models"; req_body := None |}.

(** The backend sends no sources, or sends a list of them. *)
Definition sourcesAbsentOrList (v : JsValue) : Prop :=
  v = JUndefined \/ v = JNull \/ exists l, v = JArr l.

(** The n-th request does not yield a chat answer: the call is rejected
    (timeout, error status, no connection, anything else), or it
    resolves with a body that has no [response] to read. *)
Definition chatRequestFails (w : World) (n : nat) (req : Request) : Prop :=
  match network w n req with
  | Rejected _ => True
  | Resolved resp => get_prop (data resp) (lit "response") = None
  end.

(** How a conversation turn relates to the message it was made from. *)
Definition turn_of (m : Message) (t : ConversationTurn) : Prop :=
  (msg_type m = JStr (lit "user") /\ role t = lit "user"
   \/ msg_type m <> JStr (lit "user") /\ role t = lit "assistant")
  /\ content t = msg_content m
  /\ timestamp t = msg_timestamp m.

(** Empty, or made of white space and line terminators only. *)
Definition whitespaceOnly (s : jstring) : Prop :=
  Forall (fun c => is_white_space c = true) s.

(** The bounds of GenerationSettings, with the finer facts the two
    sliders give: the temperature is a multiple of 0.1 and the token
    limit lies between 100 and 2000. *)
Definition withinBounds (t : Q) (n : Z) : Prop :=
  (0 <= t)%Q /\ (t <= 1)%Q
  /\ (exists k : nat, (k <= 10)%nat /\ (t == inject_Z (Z.of_nat k) * (1 # 10))%Q)
  /\ 0 < n /\ 100 <= n <= 2000.

Definition settingsWithinBounds (x : Settings) : Prop :=
  withinBounds (temperature x) (maxTokens x)
  /\ (enableRAG x = true \/ enableRAG x = false).

(** A request is a chat request whose settings are within bounds. *)
Definition requestWithinBounds (r : Request) : Prop :=
  exists p,
    req_body r = Some p
    /\ withinBounds (ps_temperature (p_settings p)) (ps_max_tokens (p_settings p))
    /\ (ps_enable_rag (p_settings p) = true \/ ps_enable_rag (p_settings p) = false).

Definition appInvariant (s : State) : Prop :=
  settingsWithinBounds (settings s) /\ Forall requestWithinBounds (requests s).

(** Scores do not increase from [x] to [y]. *)
Definition scoreGe (x y : VectorIndex.RetrievedChunk) : Prop :=
  (VectorIndex.similarity_score y <= VectorIndex.similarity_score x)%Q.

(** Every stored vector has the dimension of the query. *)
Definition sameDimension (query_vector : list Q) (index : VectorIndex.VectorIndex) : Prop :=
  Forall (fun e => length (VectorIndex.vector e) = length query_vector) index.

(** ** Values used in the examples *)

(** A host for the examples: numbers print as the decimal of their
    integer part, no string denotes a number, and a date prints as its
    time value. *)
Definition exampleHost : JsHost :=
  {| NumberToString := fun q => lit (NilZero.string_of_int (Z.to_int (parseInt q)));
     StringToNumber := fun _ => NaN;
     DateToISOString := fun t => lit (NilZero.string_of_int (Z.to_int t)) |}.

Definition mkMessage (type : string) (text : string) : Message :=
  {| msg_id := JUndefined;
     msg_type := JStr (lit type);
     msg_content := JStr (lit text);
     msg_sources := JUndefined;
     msg_timestamp := JStr (lit "2024-01-01T00:00:00.000Z") |}.

Definition okResponse (d : JsValue) : AxiosResponse :=
  {| data := d; status := 200; statusText := lit "OK" |}.

(** A world whose network gives the same outcome to every request. *)
Definition constWorld (o : AxiosOutcome) : World :=
  {| network := fun _ _ => o; clock := fun n => 1700000000000 + Z.of_nat n |}.

(** The rejection of a request that timed out. *)
Definition timeoutError : AxiosError :=
  {| err_code := JStr (lit "ECONNABORTED"); err_response := None; err_request := true |}.

(** The rejection of a request the server answered with status 500. *)
Definition serverError : AxiosError :=
  {| err_code := JStr (lit "ERR_BAD_RESPONSE");
     err_response :=
       Some {| data := JObj [(lit "detail", JStr (lit "boom"))];
               status := 500;
               statusText := lit "Internal Server Error" |};
     err_request := true |}.

(** A square root that is exact on squares of rationals. *)
Definition exampleSqrt (q : Q) : Q :=
  (inject_Z (Z.sqrt (Qnum q)) / inject_Z (Z.sqrt (Z.pos (Qden q))))%Q.

Definition exampleChunk (id seq : nat) : VectorIndex.Chunk :=
  {| VectorIndex.chunk_id := id;
     VectorIndex.document_id := 1;
     VectorIndex.sequence_index := seq;
     VectorIndex.text := "Photosynthesis converts light into chemical energy.";
     VectorIndex.char_span := (0, 51)%nat |}.

Definition exampleIndex : VectorIndex.VectorIndex :=
  [ {| VectorIndex.vector := [3; 4]%Q; VectorIndex.chunk := exampleChunk 1 0 |};
    {| VectorIndex.vector := [4; 3]%Q; VectorIndex.chunk := exampleChunk 2 1 |};
    {| VectorIndex.vector := [0; 0]%Q; VectorIndex.chunk := exampleChunk 3 2 |};
    {| VectorIndex.vector := [-3; -4]%Q; VectorIndex.chunk := exampleChunk 4 3 |} ].

(** * Properties *)

Arguments lit : simpl never.

Ltac js_unfold :=
  unfold sendMessage, sendMessage_catch, getAvailableModels, try_catch, try_finally,
    apiClient_post, apiClient_get, axios_request, console_log, console_error,
    read_prop, modify, mbind, mret, mthrow, Js_bind, Js_ret, Js_throw in *.

Ltac ui_unfold :=
  unfold handleSendMessage, handleSend, addMessage, setInputMessage, setIsTyping,
    setIsLoading, clearChat, updateSettings, Date_toISOString, Date_now in *.

(** ** Values and strings *)

Lemma strict_eq_str_spec v s : strict_eq_str v s = true <-> v = JStr s.
Proof.
  destruct v; simpl; try (split; [discriminate | intros H; discriminate H]).
  unfold jstring_eqb. rewrite bool_decide_eq_true. split; congruence.
Qed.

Lemma strict_eq_str_false v s : strict_eq_str v s = false <-> v <> JStr s.
Proof.
  rewrite <- strict_eq_str_spec. destruct (strict_eq_str v s); split; congruence.
Qed.

Lemma trimStart_blank s : whitespaceOnly s -> trimStart s = [].
Proof.
  induction 1 as [| c s Hc _ IH]; simpl; [reflexivity |]. rewrite Hc. exact IH.
Qed.

Lemma trim_blank s : whitespaceOnly s -> trim s = [].
Proof.
  intros H. unfold trim, trimEnd. rewrite (trimStart_blank s H). reflexivity.
Qed.

Lemma truthy_nonblank (message : jstring) :
  trim message <> [] -> negb (truthy (JStr (trim message))) = false.
Proof. simpl. destruct (trim message); [congruence | reflexivity]. Qed.

Lemma js_gt_zero_length {host : JsHost} n : js_gt_zero (js_length n) = true -> n <> 0%nat.
Proof.
  intros H ->. unfold js_gt_zero, js_length in H. simpl in H. discriminate H.
Qed.

Lemma get_length_array l : get_prop_opt (JArr l) (lit "length") = js_length (length l).
Proof. reflexivity. Qed.

Example trim_example :
  trim (lit "  hello world " ++ [0x3000%N; 0x000A%N]) = lit "hello world".
Proof. reflexivity. Qed.

(** ** chatService.js *)

Section ChatServiceFacts.
Context {host : JsHost}.


(** C5. [formatChatHistory] returns one turn per message, in the same
    order; the role of a turn is 'user' exactly when the type of its
    message is 'user' and 'assistant' in every other case, its content
    and timestamp are those of the message; so every role is 'user' or
    'assistant'. *)
Theorem formatChatHistory_turns (chatHistory : list Message) :
  length (formatChatHistory chatHistory) = length chatHistory
  /\ Forall2 turn_of chatHistory (formatChatHistory chatHistory)
  /\ Forall (fun t => role t = lit "user" \/ role t = lit "assistant")
       (formatChatHistory chatHistory).
Proof.
  unfold formatChatHistory. split; [apply length_map |]. split.
  - induction chatHistory as [| m h IH]; simpl; constructor; [| exact IH].
    unfold turn_of; simpl. split; [| split; reflexivity].
    destruct (strict_eq_str (msg_type m) (lit "user")) eqn:E.
    + left. split; [by apply strict_eq_str_spec | reflexivity].
    + right. split; [by apply strict_eq_str_false | reflexivity].
  - apply List.Forall_map. induction chatHistory as [| m h IH]; constructor; [| exact IH].
    simpl. destruct (strict_eq_str _ _); [by left | by right].
Qed.

Example formatChatHistory_example :
  map role
    (formatChatHistory
       [mkMessage "user" "hi"; mkMessage "processing" "Processing your request...";
        mkMessage "error" "Sorry"; mkMessage "bot" "hello"; mkMessage "user" "bye"])
  = [lit "user"; lit "assistant"; lit "assistant"; lit "assistant"; lit "user"].
Proof. reflexivity. Qed.

(** C1. When the POST to /api/chat succeeds with a body
    that has properties, [sendMessage] returns an object whose content
    is the [response] of the backend and whose sources are
    [sources || []] of the body: the list of the backend when it sent a
    list (the empty one included), the empty array when it sent no
    sources or another falsy value, and the value itself when it sent
    a truthy value that is not a list.  So the sources are an array
    exactly when the backend sent a list or a falsy value, and in
    particular whenever it sent a list or none. *)
Theorem sendMessage_success w s message chatHistory settings resp text srcs :
  network w (length (requests s)) (chatRequest message chatHistory settings) = Resolved resp ->
  get_prop (data resp) (lit "response") = Some text ->
  get_prop (data resp) (lit "sources") = Some srcs ->
  exists result s',
    sendMessage message chatHistory settings w s = (Returned result, s')
    /\ res_content result = text
    /\ res_sources result = (if truthy srcs then srcs else JArr [])
    /\ (forall l, srcs = JArr l -> res_sources result = JArr l)
    /\ (truthy srcs = false -> res_sources result = JArr [])
    /\ (sourcesAbsentOrList srcs -> exists l, res_sources result = JArr l)
    /\ ((exists l, res_sources result = JArr l)
        <-> (exists l, srcs = JArr l) \/ truthy srcs = false).
Proof.
  intros Hnet Htext Hsrcs. js_unfold. simpl.
  unfold chatRequest in Hnet. rewrite Hnet. simpl. rewrite Htext, Hsrcs. simpl.
  assert (Hmeta : exists meta, get_prop (data resp) (lit "metadata") = Some meta).
  { destruct (data resp); try discriminate; eexists; reflexivity. }
  destruct Hmeta as [meta ->]. simpl.
  eexists _, _. split; [reflexivity |]. simpl. split; [reflexivity |].
  unfold js_or. split; [reflexivity |]. split; [| split; [| split]].
  - intros l ->. reflexivity.
  - intros ->. reflexivity.
  - intros [-> | [-> | [l ->]]]; simpl; eauto.
  - destruct (truthy srcs) eqn:Ht.
    + split; [intros [l ->]; left; by exists l |].
      intros [[l ->] | H]; [by exists l | discriminate H].
    + split; [intros _; by right | intros _; by exists []].
Qed.


(** C4. Every call of [sendMessage] issues exactly one request, the
    POST to /api/chat; when that request is rejected with code
    ECONNABORTED, the call throws the timeout error, and no other
    request has been made. *)
Theorem sendMessage_single_post w s message chatHistory settings :
  requests (snd (sendMessage message chatHistory settings w s))
    = requests s ++ [chatRequest message chatHistory settings]
  /\ req_method (chatRequest message chatHistory settings) = POST
  /\ req_url (chatRequest message chatHistory settings) = lit "/api/chat"
  /\ (forall e,
        network w (length (requests s)) (chatRequest message chatHistory settings)
          = Rejected e ->
        err_code e = JStr (lit "ECONNABORTED") ->
        fst (sendMessage message chatHistory settings w s) = Threw (ErrorObj timeoutMessage)).
Proof.
  unfold chatRequest. split; [| split; [reflexivity | split; [reflexivity |]]].
  - js_unfold. simpl. destruct (network w _ _) as [resp | e]; simpl.
    + destruct (data resp); reflexivity.
    + destruct (strict_eq_str _ _); [reflexivity |].
      destruct (err_response e); [reflexivity |]. destruct (err_request e); reflexivity.
  - intros e Hnet Hcode. js_unfold. simpl. rewrite Hnet. simpl.
    apply strict_eq_str_spec in Hcode. rewrite Hcode. reflexivity.
Qed.


End ChatServiceFacts.

(** A successful answer with two sources. *)
Definition exampleAnswer : list (jstring * JsValue) :=
  [ (lit "response", JStr (lit "Plants turn light into chemical energy."));
    (lit "sources",
     JArr [ JObj [(lit "title", JStr (lit "biology.txt")); (lit "url", JStr (lit "/docs/1"))];
            JObj [(lit "title", JStr (lit "notes.pdf")); (lit "url", JStr (lit "/docs/2"))] ]) ].

Lemma sendMessage_success_witness :
  exists result s',
    sendMessage (host := exampleHost) (lit "How do plants make energy?") []
      initialSettings (constWorld (Resolved (okResponse (JObj exampleAnswer))))
      (initialState [])
    = (Returned result, s')
    /\ res_content result = assoc (lit "response") exampleAnswer
    /\ res_sources result = assoc (lit "sources") exampleAnswer.
Proof.
  destruct (sendMessage_success (host := exampleHost)
              (constWorld (Resolved (okResponse (JObj exampleAnswer)))) (initialState [])
              (lit "How do plants make energy?") [] initialSettings
              (okResponse (JObj exampleAnswer))
              (assoc (lit "response") exampleAnswer)
              (assoc (lit "sources") exampleAnswer)
              eq_refl eq_refl eq_refl)
    as (result & s' & Hrun & Hcontent & _ & Hlist & _).
  exists result, s'. split; [exact Hrun |]. split; [exact Hcontent |].
  exact (Hlist _ eq_refl).
Defined.

(** A successful answer whose sources are a string: the string is
    what [sendMessage] returns as sources, and it is no array. *)
Lemma sendMessage_sources_not_array :
  exists result s',
    sendMessage (host := exampleHost) (lit "hello") [] initialSettings
      (constWorld
         (Resolved (okResponse (JObj [(lit "response", JStr (lit "ok"));
                                      (lit "sources", JStr (lit "abc"))]))))
      (initialState [])
    = (Returned result, s')
    /\ res_sources result = JStr (lit "abc")
    /\ ~ (exists l, res_sources result = JArr l).
Proof.
  eexists _, _. split; [reflexivity |]. split; [reflexivity |].
  intros [l H]. discriminate H.
Qed.

Example sendMessage_empty_corpus :
  fst (sendMessage (host := exampleHost) (lit "What is AI?") [] initialSettings
         (constWorld (Resolved (okResponse (JObj [(lit "response", JStr (lit "AI is..."))]))))
         (initialState []))
  = Returned {| res_content := JStr (lit "AI is...");
                res_sources := JArr [];
                res_metadata := JObj [] |}.
Proof. reflexivity. Qed.


Lemma sendMessage_single_post_witness :
  requests (snd (sendMessage (host := exampleHost) (lit "hello") [] initialSettings
                   (constWorld (Rejected timeoutError)) (initialState [])))
    = [chatRequest (lit "hello") [] initialSettings]
  /\ fst (sendMessage (host := exampleHost) (lit "hello") [] initialSettings
            (constWorld (Rejected timeoutError)) (initialState []))
     = Threw (ErrorObj timeoutMessage).
Proof.
  destruct (sendMessage_single_post (host := exampleHost)
              (constWorld (Rejected timeoutError)) (initialState [])
              (lit "hello") [] initialSettings)
    as (Hreq & _ & _ & Htimeout).
  split; [exact Hreq | exact (Htimeout timeoutError eq_refl eq_refl)].
Defined.


(** ** MessageInput.js, ChatInterface.js and Message.js *)

Section ChatInterfaceFacts.
Context {host : JsHost}.

(** C9. For an empty or white-space-only input, [handleSend] returns
    without calling [onSend], whatever [onSend] is, and
    [handleSendMessage] returns at once: the whole state (chat history,
    loading flag, requests issued) is the one before. *)
Theorem blank_input_sends_nothing (value : jstring) :
  whitespaceOnly value ->
  (forall disabled onSend w s, handleSend value disabled onSend w s = (Returned tt, s))
  /\ (forall chatHistory0 settings0 w s,
        handleSendMessage chatHistory0 settings0 value w s = (Returned tt, s)).
Proof.
  intros H. split.
  - intros. unfold handleSend. rewrite (trim_blank value H). reflexivity.
  - intros. unfold handleSendMessage. rewrite (trim_blank value H). reflexivity.
Qed.

(** C7. When the chat request fails, [handleSendMessage] appends the
    user message, the processing message and exactly one message of
    type 'error' whose text is 'Sorry, I encountered an error. Please
    try again.', whatever the error;
    the error [sendMessage] threw is logged with [console.error]; no
    message of type 'bot' is added. *)
Theorem failure_appends_generic_error w s chatHistory0 settings0 message :
  trim message <> [] ->
  chatRequestFails w (length (requests s)) (chatRequest message chatHistory0 settings0) ->
  exists s' u p err thrown,
    handleSendMessage chatHistory0 settings0 message w s = (Returned tt, s')
    /\ chatHistory s' = chatHistory s ++ [u; p; err]
    /\ msg_type u = JStr (lit "user")
    /\ msg_type p = JStr (lit "processing")
    /\ msg_type err = JStr (lit "error")
    /\ msg_content err = JStr (lit "Sorry, I encountered an error. Please try again.")
    /\ fst (sendMessage message chatHistory0 settings0 w s) = Threw (ErrorObj thrown)
    /\ last (console s')
       = Some (LevelError, [LogStr (lit "Chat error:"); LogThrown (ErrorObj thrown)]).
Proof.
  intros Hmsg Hfail. unfold chatRequestFails, chatRequest in Hfail.
  unfold handleSendMessage. rewrite (truthy_nonblank _ Hmsg).
  ui_unfold. js_unfold. simpl.
  destruct (network w (length (requests s)) _) as [resp | e] eqn:Hnet; simpl.
  - rewrite Hfail. simpl.
    eexists _, _, _, _, _. split; [reflexivity |]. simpl.
    split; [rewrite <- !app_assoc; reflexivity |].
    repeat (split; [reflexivity |]). rewrite last_snoc. reflexivity.
  - destruct (strict_eq_str (err_code e) (lit "ECONNABORTED"));
      [| destruct (err_response e); [| destruct (err_request e)]]; simpl;
      (eexists _, _, _, _, _; split; [reflexivity |]; simpl;
       split; [rewrite <- !app_assoc; reflexivity |];
       repeat (split; [reflexivity |]); rewrite last_snoc; reflexivity).
Qed.

Lemma Message_sources_shown m links :
  Message_sources m = SourcesList links ->
  msg_type m = JStr (lit "bot") /\ exists l, msg_sources m = JArr l /\ l <> [].
Proof.
  unfold Message_sources, sourcesGuard.
  destruct (strict_eq_str (msg_type m) (lit "bot")) eqn:Ht; simpl; [| discriminate].
  apply strict_eq_str_spec in Ht.
  destruct (truthy (msg_sources m)); simpl; [| discriminate].
  destruct (js_gt_zero _) eqn:Hlen; [| discriminate].
  destruct (msg_sources m) as [| | | | | l |]; try discriminate.
  intros _. split; [exact Ht |]. exists l. split; [reflexivity |].
  rewrite get_length_array in Hlen. apply js_gt_zero_length in Hlen.
  intros ->. apply Hlen. reflexivity.
Qed.

Lemma Message_sources_not_bot m :
  msg_type m <> JStr (lit "bot") -> Message_sources m = NoSourcesSection.
Proof.
  intros H. apply strict_eq_str_false in H.
  unfold Message_sources, sourcesGuard. rewrite H. reflexivity.
Qed.

(** C3. When the chat request fails, none of the messages
    [handleSendMessage] appends has a [sources] property, the last of
    them is the error message, and none is rendered with a Sources
    block; [Message] renders a Sources block only for a message of type
    'bot' whose sources are a non-empty array; for a message of type
    'error' it renders none. *)
Theorem failed_request_shows_no_sources :
  (forall w s chatHistory0 settings0 message,
     trim message <> [] ->
     chatRequestFails w (length (requests s)) (chatRequest message chatHistory0 settings0) ->
     exists s' u p err,
       handleSendMessage chatHistory0 settings0 message w s = (Returned tt, s')
       /\ chatHistory s' = chatHistory s ++ [u; p; err]
       /\ msg_type err = JStr (lit "error")
       /\ Forall (fun m => msg_sources m = JUndefined /\ Message_sources m = NoSourcesSection)
            [u; p; err])
  /\ (forall m links,
        Message_sources m = SourcesList links ->
        msg_type m = JStr (lit "bot") /\ exists l, msg_sources m = JArr l /\ l <> [])
  /\ (forall m, msg_type m = JStr (lit "error") -> Message_sources m = NoSourcesSection).
Proof.
  split; [| split].
  - intros w s chatHistory0 settings0 message Hmsg Hfail.
    unfold chatRequestFails, chatRequest in Hfail.
    unfold handleSendMessage. rewrite (truthy_nonblank _ Hmsg).
    ui_unfold. js_unfold. simpl.
    destruct (network w (length (requests s)) _) as [resp | e] eqn:Hnet; simpl.
    + rewrite Hfail. simpl. eexists _, _, _, _. split; [reflexivity |]. simpl.
      split; [rewrite <- !app_assoc; reflexivity |]. split; [reflexivity |].
      repeat constructor.
    + destruct (strict_eq_str (err_code e) (lit "ECONNABORTED"));
        [| destruct (err_response e); [| destruct (err_request e)]]; simpl;
        (eexists _, _, _, _; split; [reflexivity |]; simpl;
         split; [rewrite <- !app_assoc; reflexivity |]; split; [reflexivity |];
         repeat constructor).
  - exact Message_sources_shown.
  - intros m Hm. apply Message_sources_not_bot. rewrite Hm. discriminate.
Qed.

End ChatInterfaceFacts.

Lemma blank_input_sends_nothing_witness :
  handleSend (lit "  " ++ [0x0009%N; 0x000A%N; 0x3000%N]) false
    (handleSendMessage (host := exampleHost) [] initialSettings)
    (constWorld (Rejected timeoutError)) (initialState [])
  = (Returned tt, initialState [])
  /\ handleSendMessage (host := exampleHost) [] initialSettings
       (lit "  " ++ [0x0009%N; 0x000A%N; 0x3000%N])
       (constWorld (Rejected timeoutError)) (initialState [])
     = (Returned tt, initialState []).
Proof.
  destruct (blank_input_sends_nothing (host := exampleHost)
              (lit "  " ++ [0x0009%N; 0x000A%N; 0x3000%N])
              ltac:(repeat constructor))
    as [Hinput Hhandler].
  split; [apply Hinput | apply Hhandler].
Defined.

Lemma failure_appends_generic_error_witness :
  exists s' u p err,
    handleSendMessage (host := exampleHost) [] initialSettings (lit "hello")
      (constWorld (Rejected serverError)) (initialState [])
    = (Returned tt, s')
    /\ chatHistory s' = [u; p; err]
    /\ msg_type err = JStr (lit "error")
    /\ msg_content err = JStr (lit "Sorry, I encountered an error. Please try again.")
    /\ last (console s')
       = Some (LevelError,
               [LogStr (lit "Chat error:");
                LogThrown (ErrorObj (lit "Server error: Internal Server Error"))]).
Proof.
  destruct (failure_appends_generic_error (host := exampleHost)
              (constWorld (Rejected serverError)) (initialState [])
              [] initialSettings (lit "hello")
              ltac:(vm_compute; discriminate) I)
    as (s' & u & p & err & thrown & Hrun & Hhist & _ & _ & Htype & Htext & Hthrown & Hlog).
  exists s', u, p, err. repeat (split; [assumption |]).
  rewrite Hlog. vm_compute in Hthrown. injection Hthrown as <-. reflexivity.
Defined.

Lemma failed_request_shows_no_sources_witness :
  exists s' u p err,
    handleSendMessage (host := exampleHost) [] initialSettings (lit "hello")
      (constWorld (Rejected timeoutError)) (initialState [])
    = (Returned tt, s')
    /\ chatHistory s' = [u; p; err]
    /\ msg_type err = JStr (lit "error")
    /\ Forall (fun m => msg_sources m = JUndefined
                        /\ Message_sources (host := exampleHost) m = NoSourcesSection)
         [u; p; err].
Proof.
  apply (proj1 (failed_request_shows_no_sources (host := exampleHost))
           (constWorld (Rejected timeoutError)) (initialState [])
           [] initialSettings (lit "hello")
           ltac:(vm_compute; discriminate) I).
Defined.

(** A bot message with sources is rendered with its Sources block. *)
Example Message_sources_example :
  Message_sources (host := exampleHost)
    {| msg_id := JNum 1;
       msg_type := JStr (lit "bot");
       msg_content := JStr (lit "answer");
       msg_sources := JArr [JObj [(lit "title", JStr (lit "biology.txt"));
                                  (lit "url", JStr (lit "/docs/1"))]];
       msg_timestamp := JStr (lit "2024-01-01T00:00:00.000Z") |}
  = SourcesList [(JStr (lit "/docs/1"), JStr (lit "biology.txt"))].
Proof. reflexivity. Qed.

(** ** App.js and Sidebar.js: the settings *)

Lemma temperature_slider_bounds k :
  (0 <= parseFloat (range_value temperatureRange k))%Q
  /\ (parseFloat (range_value temperatureRange k) <= 1)%Q
  /\ exists j : nat,
       (j <= 10)%nat
       /\ (parseFloat (range_value temperatureRange k) == inject_Z (Z.of_nat j) * (1 # 10))%Q.
Proof.
  unfold parseFloat, range_value, temperatureRange. simpl.
  destruct (Qle_bool _ 1) eqn:E.
  - apply Qle_bool_iff in E. split; [| split; [exact E |]].
    + unfold Qle. simpl. lia.
    + exists k. split.
      * unfold Qle in E. simpl in E. lia.
      * ring.
  - split; [| split].
    + unfold Qle; simpl; lia.
    + unfold Qle; simpl; lia.
    + exists 10%nat. split; [lia | reflexivity].
Qed.

Lemma maxTokens_slider_bounds k :
  0 < parseInt (range_value maxTokensRange k)
  /\ 100 <= parseInt (range_value maxTokensRange k) <= 2000.
Proof.
  unfold parseInt, range_value, maxTokensRange. simpl.
  destruct (Qle_bool _ 2000) eqn:E.
  - apply Qle_bool_iff in E. unfold Qle in E. simpl in *.
    rewrite Z.quot_1_r. lia.
  - simpl. rewrite Z.quot_1_r. lia.
Qed.

Lemma initialSettings_within_bounds : settingsWithinBounds initialSettings.
Proof.
  unfold settingsWithinBounds, withinBounds, initialSettings. simpl.
  split; [| by left].
  split; [unfold Qle; simpl; lia |]. split; [unfold Qle; simpl; lia |].
  split; [| lia]. exists 7%nat. split; [lia | reflexivity].
Qed.

Example slider_values :
  map (fun k => Qred (range_value temperatureRange k)) [0; 3; 10; 25]%nat
  = [0; 3 # 10; 1; 1]%Q
  /\ map (fun k => parseInt (range_value maxTokensRange k)) [0; 9; 19; 40]%nat
     = [100; 1000; 2000; 2000].
Proof. split; reflexivity. Qed.

Section AppFacts.
Context {host : JsHost}.

Lemma chatRequest_within_bounds message chatHistory0 settings0 :
  settingsWithinBounds settings0 ->
  requestWithinBounds (chatRequest message chatHistory0 settings0).
Proof. intros H. eexists. split; [reflexivity | exact H]. Qed.

(** The handler leaves the settings alone and posts at most the one
    request built from the settings it was given. *)
Lemma handleSendMessage_frame chatHistory0 settings0 message w s :
  settings (snd (handleSendMessage chatHistory0 settings0 message w s)) = settings s
  /\ (requests (snd (handleSendMessage chatHistory0 settings0 message w s)) = requests s
      \/ requests (snd (handleSendMessage chatHistory0 settings0 message w s))
         = requests s ++ [chatRequest message chatHistory0 settings0]).
Proof.
  unfold handleSendMessage, chatRequest.
  destruct (negb (truthy (JStr (trim message)))); [split; [reflexivity | by left] |].
  ui_unfold. js_unfold. simpl.
  destruct (network w (length (requests s)) _) as [resp | e]; simpl.
  - destruct (data resp); simpl; (split; [reflexivity | by right]).
  - destruct (strict_eq_str (err_code e) (lit "ECONNABORTED"));
      [| destruct (err_response e); [| destruct (err_request e)]]; simpl;
      (split; [reflexivity | by right]).
Qed.

Lemma dispatch_invariant w e s : appInvariant s -> appInvariant (snd (dispatch e w s)).
Proof.
  intros [Hset Hreq]. destruct e as [text | | p |]; simpl.
  - split; assumption.
  - unfold handleSend.
    destruct (truthy (JStr (trim (inputMessage s))) && negb (isLoading s));
      [| split; assumption].
    destruct (handleSendMessage_frame (chatHistory s) (settings s) (inputMessage s) w s)
      as [Hs [Hr | Hr]]; unfold appInvariant; rewrite Hs, Hr.
    + split; assumption.
    + split; [assumption |]. apply Forall_app. split; [assumption |].
      constructor; [| constructor]. apply chatRequest_within_bounds. exact Hset.
  - destruct Hset as [(H0 & H1 & Hk & Hpos & Hrange) Hb].
    destruct p as [o | k | k |]; (split; [| exact Hreq]); simpl;
      unfold settingsWithinBounds, withinBounds; simpl.
    + repeat split; try assumption; tauto.
    + pose proof (temperature_slider_bounds k) as (A & B & C).
      repeat split; try assumption; tauto.
    + pose proof (maxTokens_slider_bounds k) as (A & B).
      repeat split; try assumption; tauto.
    + repeat split; try assumption; try tauto. destruct (enableRAG (settings s)); auto.
  - split; assumption.
Qed.

Lemma after_invariant w es : forall s, appInvariant s -> appInvariant (after w es s).
Proof.
  induction es as [| e es IH]; intros s H; [exact H |].
  apply IH. apply dispatch_invariant. exact H.
Qed.

(** C6. Whatever the user does (typing, sending, moving the sliders,
    choosing a model, toggling RAG, clearing the chat), starting from
    the defaults, the settings have a temperature in [0,1] that is a
    multiple of 0.1, a token limit above 0 (between 100 and 2000) and a
    boolean RAG flag; and every request issued is a chat request whose
    settings satisfy the same bounds. *)
Theorem settings_within_bounds w savedHistory events :
  settingsWithinBounds (settings (after w events (initialState savedHistory)))
  /\ Forall requestWithinBounds (requests (after w events (initialState savedHistory))).
Proof.
  apply after_invariant. split; [apply initialSettings_within_bounds | constructor].
Qed.

End AppFacts.

(** A session: the temperature is pushed to the top, the token limit
    to the bottom, RAG is switched off, and a message is sent. *)
Example session_example :
  let s := after (host := exampleHost) (constWorld (Rejected timeoutError))
             [EvPanel (SlideTemperature 12); EvPanel (SlideMaxTokens 0); EvPanel ToggleRAG;
              EvType (lit "hi"); EvSend]
             (initialState []) in
  map req_body (requests s)
  = [Some {| p_message := lit "hi";
             p_chat_history := [];
             p_settings := {| ps_model := lit "mistral:7b";
                              ps_temperature := 1;
                              ps_max_tokens := 100;
                              ps_enable_rag := false |} |}]
  /\ map msg_type (chatHistory s)
     = [JStr (lit "user"); JStr (lit "processing"); JStr (lit "error")].
Proof. split; reflexivity. Qed.

(** * Further properties of the client *)

Lemma get_prop_nullish v k : get_prop v k = None <-> nullish v.
Proof.
  unfold nullish. destruct v; simpl; split; intros H; try discriminate; auto;
    destruct H as [H | H]; discriminate H.
Qed.

Lemma get_prop_defined v k : ~ nullish v -> exists x, get_prop v k = Some x.
Proof.
  intros H. destruct (get_prop v k) eqn:E; [eauto |].
  apply get_prop_nullish in E. contradiction.
Qed.

(** ** chatService.js *)

(** X1. [testConnection] never throws and makes exactly one request,
    the GET of /api/health; it answers true exactly when that request
    resolves with a body whose [status] is the string 'healthy'. *)
Theorem testConnection_healthy w s :
  exists b s',
    testConnection w s = (Returned b, s')
    /\ requests s' = requests s ++ [healthRequest]
    /\ (b = true <->
        exists resp,
          network w (length (requests s)) healthRequest = Resolved resp
          /\ get_prop (data resp) (lit "status") = Some (JStr (lit "healthy"))).
Proof.
  unfold testConnection, healthRequest. js_unfold. simpl.
  destruct (network w _ _) as [resp | e]; simpl.
  - destruct (get_prop (data resp) (lit "status")) as [st |] eqn:E; simpl.
    + eexists _, _. split; [reflexivity |]. split; [reflexivity |].
      rewrite strict_eq_str_spec. split.
      * intros ->. exists resp. by split.
      * intros (resp' & [= <-] & H). congruence.
    + eexists _, _. split; [reflexivity |]. split; [reflexivity |].
      split; [discriminate |]. intros (resp' & [= <-] & H). congruence.
  - eexists _, _. split; [reflexivity |]. split; [reflexivity |].
    split; [discriminate |]. intros (resp' & H & _). discriminate H.
Qed.

Section MoreChatServiceFacts.
Context {host : JsHost}.


(** X3. The sources and the metadata of a result [sendMessage]
    returns are always truthy values (never undefined, null, false, 0
    or the empty string), so a caller's own [response.sources || []]
    leaves the sources as they are. *)
Theorem sendMessage_result_truthy w s message chatHistory settings result s' :
  sendMessage message chatHistory settings w s = (Returned result, s') ->
  truthy (res_sources result) = true
  /\ truthy (res_metadata result) = true
  /\ js_or (res_sources result) (JArr []) = res_sources result.
Proof.
  js_unfold. simpl.
  destruct (network w _ _) as [resp | e]; simpl.
  - destruct (get_prop (data resp) (lit "response")); simpl; [| discriminate].
    destruct (get_prop (data resp) (lit "sources")) as [x |]; simpl; [| discriminate].
    destruct (get_prop (data resp) (lit "metadata")) as [y |]; simpl; [| discriminate].
    intros [= <- _]. simpl. unfold js_or.
    destruct (truthy x) eqn:Hx; destruct (truthy y) eqn:Hy; simpl; rewrite ?Hx; auto.
  - destruct (strict_eq_str _ _); [discriminate |].
    destruct (err_response e); [discriminate |].
    destruct (err_request e); discriminate.
Qed.

(** X4. [sendMessage] touches nothing of the React state and does not
    read the clock; it only writes to the console: three [console.log]
    entries when it returns, and, when it throws, [console.log] entries
    followed by one [console.error] entry that carries the value it
    caught, which for a rejected POST is the rejection of axios
    itself. *)
Theorem sendMessage_console w s message chatHistory settings :
  reactState_unchanged s (snd (sendMessage message chatHistory settings w s))
  /\ exists added,
       console (snd (sendMessage message chatHistory settings w s)) = console s ++ added
       /\ match fst (sendMessage message chatHistory settings w s) with
          | Returned _ => length added = 3%nat /\ Forall is_log added
          | Threw _ =>
              exists logs caught,
                added = logs ++ [(LevelError,
                                  [LogStr (lit "Frontend: Chat API error:"); LogThrown caught])]
                /\ Forall is_log logs
                /\ forall e,
                     network w (length (requests s))
                       (chatRequest message chatHistory settings) = Rejected e ->
                     caught = AxiosErrorObj e
          end.
Proof.
  unfold chatRequest, reactState_unchanged. js_unfold. simpl.
  destruct (network w _ _) as [resp | e]; simpl.
  - destruct (get_prop (data resp) (lit "response")) as [r |] eqn:E1; simpl.
    + assert (Hn : ~ nullish (data resp)).
      { intros Hn. apply (get_prop_nullish _ (lit "response")) in Hn. congruence. }
      destruct (get_prop_defined _ (lit "sources") Hn) as [x ->].
      destruct (get_prop_defined _ (lit "metadata") Hn) as [y ->]. simpl.
      split; [repeat split |].
      eexists. rewrite <- !app_assoc. split; [reflexivity |]. simpl.
      split; [reflexivity | repeat constructor].
    + split; [repeat split |].
      eexists. rewrite <- !app_assoc. simpl. split; [reflexivity |].
      eexists [_; _; _], _. split; [reflexivity |]. split; [repeat constructor |].
      intros e H. discriminate H.
  - destruct (strict_eq_str _ _);
      [| destruct (err_response e); [| destruct (err_request e)]]; simpl;
      (split; [repeat split |]; eexists; rewrite <- !app_assoc; simpl;
       split; [reflexivity |]; eexists [_; _], _; split; [reflexivity |];
       split; [repeat constructor |]; intros e' [= <-]; reflexivity).
Qed.

End MoreChatServiceFacts.

(** X5. [getAvailableModels] makes exactly one request, the GET of
    /api/models; when that request resolves with an undefined or null
    body it returns the default list as well; and it writes to the
    console exactly when it falls back on the default list, that is,
    unless the request resolves with a body that has properties. *)
Theorem getAvailableModels_fallback w s :
  requests (snd (getAvailableModels w s)) = requests s ++ [modelsRequest]
  /\ (forall resp,
        network w (length (requests s)) modelsRequest = Resolved resp ->
        nullish (data resp) ->
        fst (getAvailableModels w s) = Returned defaultModels)
  /\ (console (snd (getAvailableModels w s)) = console s
      <-> exists resp,
            network w (length (requests s)) modelsRequest = Resolved resp
            /\ ~ nullish (data resp)).
Proof.
  unfold modelsRequest. js_unfold. simpl.
  destruct (network w _ _) as [resp | e]; simpl.
  - destruct (get_prop (data resp) (lit "models")) as [listed |] eqn:E; simpl.
    + assert (Hn : ~ nullish (data resp)).
      { intros Hn. apply (get_prop_nullish _ (lit "models")) in Hn. congruence. }
      split; [reflexivity |]. split.
      * intros resp' [= <-] Hnull. contradiction.
      * split; [intros _; exists resp; by split | reflexivity].
    + apply get_prop_nullish in E. split; [reflexivity |]. split; [reflexivity |].
      split.
      * intros H. apply (f_equal (@length _)) in H. rewrite length_app in H.
        simpl in H. lia.
      * intros (resp' & [= <-] & Hn). contradiction.
  - split; [reflexivity |]. split; [intros resp H; discriminate H |]. split.
    + intros H. apply (f_equal (@length _)) in H. rewrite length_app in H.
      simpl in H. lia.
    + intros (resp & H & _). discriminate H.
Qed.

(** ** Numbers *)

Lemma pow2_pos (e : Z) : (0 < pow2 e)%Q.
Proof. apply Qpower_0_lt. reflexivity. Qed.

Lemma pow2_plus (a b : Z) : (pow2 (a + b)%Z == pow2 a * pow2 b)%Q.
Proof. apply Qpower_plus. discriminate. Qed.

Lemma pow2_le (a b : Z) : a <= b -> (pow2 a <= pow2 b)%Q.
Proof. intros H. apply Qpower_le_compat_l; [exact H | discriminate]. Qed.

Lemma pow2_Z (k : Z) : 0 <= k -> (inject_Z (2 ^ k) == pow2 k)%Q.
Proof. intros H. apply (Zpower_Qpower 2 k H). Qed.

Lemma div_pow2 (q : Q) (e : Z) : (q / pow2 e == q * pow2 (- e)%Z)%Q.
Proof. unfold Qdiv, pow2. rewrite Qpower_opp. reflexivity. Qed.

Lemma roundTiesToEven_comp x y : (x == y)%Q -> roundTiesToEven x = roundTiesToEven y.
Proof.
  intros H. unfold roundTiesToEven. rewrite (Qfloor_comp _ _ H).
  assert (E : (x - inject_Z (Qfloor y) ?= 1 # 2)%Q = (y - inject_Z (Qfloor y) ?= 1 # 2)%Q).
  { apply Qcompare_comp; [rewrite H|]; reflexivity. }
  rewrite E. reflexivity.
Qed.

Lemma roundTiesToEven_Z z : roundTiesToEven (inject_Z z) = z.
Proof.
  unfold roundTiesToEven. rewrite Qfloor_Z.
  assert (E : (inject_Z z - inject_Z z ?= 1 # 2)%Q = Lt).
  { rewrite <- Qlt_alt. unfold Qlt, Qminus, Qplus, Qopp, inject_Z.
    cbn [Qnum Qden Pos.mul]. lia. }
  rewrite E. reflexivity.
Qed.

Lemma roundTiesToEven_range q :
  Qfloor q <= roundTiesToEven q <= Qfloor q + 1.
Proof.
  unfold roundTiesToEven.
  destruct (q - inject_Z (Qfloor q) ?= 1 # 2)%Q; [destruct (Z.even _) | |]; lia.
Qed.

Lemma roundTiesToEven_mono x y : (x <= y)%Q -> roundTiesToEven x <= roundTiesToEven y.
Proof.
  intros H. pose proof (Qfloor_resp_le _ _ H) as Hf.
  destruct (Z.eq_dec (Qfloor x) (Qfloor y)) as [E | N].
  - unfold roundTiesToEven. rewrite E.
    assert (Hr : (x - inject_Z (Qfloor y) <= y - inject_Z (Qfloor y))%Q).
    { apply Qplus_le_l with (z := inject_Z (Qfloor y)). ring_simplify. exact H. }
    destruct (Qcompare_spec (x - inject_Z (Qfloor y)) (1 # 2)) as [Ex | Lx | Gx];
      destruct (Qcompare_spec (y - inject_Z (Qfloor y)) (1 # 2)) as [Ey | Ly | Gy];
      try (destruct (Z.even (Qfloor y))); try lia; exfalso; lra.
  - pose proof (roundTiesToEven_range x). pose proof (roundTiesToEven_range y). lia.
Qed.

Lemma lastPlace_mono x y : (0 <= x)%Q -> (x <= y)%Q -> lastPlace x <= lastPlace y.
Proof.
  intros H0 H. unfold lastPlace.
  apply Z.max_le_compat_l, Z.sub_le_mono_r, Z.log2_le_mono, Qfloor_resp_le.
  rewrite !Qabs_pos by (try exact H0; apply (Qle_trans _ _ _ H0 H)).
  apply Qmult_le_compat_r; [exact H | apply Qlt_le_weak, pow2_pos].
Qed.

(** A real rounds to at most 2^(e+53), e its last place. *)
Lemma toDouble_upper x : (0 <= x)%Q -> (toDouble x <= pow2 (lastPlace x + 53)%Z)%Q.
Proof.
  intros H0. unfold toDouble. set (e := lastPlace x).
  assert (He : Z.log2 (Qfloor (x * pow2 1074)) - 1126 <= e).
  { unfold e, lastPlace. rewrite (Qabs_pos _ H0). lia. }
  assert (He' : -1074 <= e) by (unfold e, lastPlace; lia).
  assert (Hn : Qfloor (x * pow2 1074) < 2 ^ (e + 1127)).
  { destruct (Z.le_gt_cases (Qfloor (x * pow2 1074)) 0) as [Hle | Hgt].
    - pose proof (Z.pow_pos_nonneg 2 (e + 1127) ltac:(lia) ltac:(lia)). lia.
    - destruct (Z.log2_spec _ Hgt) as [_ Hlt].
      eapply Z.lt_le_trans; [exact Hlt |]. apply Z.pow_le_mono_r; lia. }
  assert (Hx : (x * pow2 1074 <= pow2 (e + 53)%Z * pow2 1074)%Q).
  { rewrite <- pow2_plus. rewrite <- (pow2_Z (e + 53 + 1074)) by lia.
    apply Qlt_le_weak. eapply Qlt_le_trans; [apply Qlt_floor |].
    rewrite <- Zle_Qle. replace (e + 53 + 1074) with (e + 1127) by lia. lia. }
  apply Qmult_le_r in Hx; [| apply pow2_pos].
  assert (Hq : (x / pow2 e <= inject_Z (2 ^ 53))%Q).
  { rewrite (pow2_Z 53) by lia. rewrite div_pow2.
    apply Qmult_le_r with (z := pow2 e); [apply pow2_pos |].
    rewrite <- Qmult_assoc, <- !pow2_plus. replace (- e + e) with 0 by lia.
    rewrite Qmult_1_r. replace (53 + e) with (e + 53) by lia. exact Hx. }
  apply roundTiesToEven_mono in Hq. rewrite roundTiesToEven_Z in Hq.
  rewrite pow2_plus, (Qmult_comm (pow2 e)).
  apply Qmult_le_compat_r; [| apply Qlt_le_weak, pow2_pos].
  rewrite <- (pow2_Z 53) by lia. rewrite <- Zle_Qle. exact Hq.
Qed.

(** A real whose last place is above that of the subnormals is at
    least 2^(e+52), and so is the Number for it. *)
Lemma toDouble_lower y :
  (0 <= y)%Q -> -1074 < lastPlace y -> (pow2 (lastPlace y + 52)%Z <= toDouble y)%Q.
Proof.
  intros H0 Hsub. unfold toDouble. set (e := lastPlace y) in *.
  assert (He : Z.log2 (Qfloor (y * pow2 1074)) = e + 1126).
  { unfold e, lastPlace in *. rewrite (Qabs_pos _ H0) in *. lia. }
  assert (Hpos : 0 < Qfloor (y * pow2 1074)).
  { destruct (Z.le_gt_cases (Qfloor (y * pow2 1074)) 0) as [Hle | Hgt]; [| lia].
    rewrite (Z.log2_nonpos _ Hle) in He. lia. }
  destruct (Z.log2_spec _ Hpos) as [Hge _]. rewrite He in Hge.
  assert (Hy : (pow2 (e + 52)%Z * pow2 1074 <= y * pow2 1074)%Q).
  { rewrite <- pow2_plus. rewrite <- (pow2_Z (e + 52 + 1074)) by lia.
    eapply Qle_trans; [| apply Qfloor_le].
    rewrite <- Zle_Qle. replace (e + 52 + 1074) with (e + 1126) by lia. exact Hge. }
  apply Qmult_le_r in Hy; [| apply pow2_pos].
  assert (Hq : (inject_Z (2 ^ 52) <= y / pow2 e)%Q).
  { rewrite (pow2_Z 52) by lia. rewrite div_pow2.
    apply Qmult_le_r with (z := pow2 e); [apply pow2_pos |].
    rewrite <- Qmult_assoc, <- !pow2_plus. replace (- e + e) with 0 by lia.
    rewrite Qmult_1_r. replace (52 + e) with (e + 52) by lia. exact Hy. }
  apply roundTiesToEven_mono in Hq. rewrite roundTiesToEven_Z in Hq.
  rewrite pow2_plus, (Qmult_comm (pow2 e)).
  apply Qmult_le_compat_r; [| apply Qlt_le_weak, pow2_pos].
  rewrite <- (pow2_Z 52) by lia. rewrite <- Zle_Qle. exact Hq.
Qed.

(** Rounding keeps the order of non-negative reals. *)
Lemma toDouble_mono x y : (0 <= x)%Q -> (x <= y)%Q -> (toDouble x <= toDouble y)%Q.
Proof.
  intros H0 H. assert (H0y : (0 <= y)%Q) by apply (Qle_trans _ _ _ H0 H).
  pose proof (lastPlace_mono x y H0 H) as He.
  destruct (Z.eq_dec (lastPlace x) (lastPlace y)) as [E | N].
  - unfold toDouble. rewrite E.
    apply Qmult_le_compat_r; [| apply Qlt_le_weak, pow2_pos].
    rewrite <- Zle_Qle. apply roundTiesToEven_mono.
    unfold Qdiv. apply Qmult_le_compat_r; [exact H |].
    apply Qlt_le_weak, Qinv_lt_0_compat, pow2_pos.
  - assert (Hsub : -1074 < lastPlace y) by (unfold lastPlace in *; lia).
    eapply Qle_trans; [apply (toDouble_upper x H0) |].
    eapply Qle_trans; [| apply (toDouble_lower y H0y Hsub)].
    apply pow2_le. lia.
Qed.

(** A significand below 2^53 at an exponent from -1074 on is a
    Number. *)
Lemma isNumber_scaled (m e : Z) :
  Z.abs m < 2 ^ 53 -> -1074 <= e -> isNumber (inject_Z m * pow2 e).
Proof.
  intros Hm He. unfold isNumber, toDouble.
  set (q := (inject_Z m * pow2 e)%Q). set (E := lastPlace q).
  assert (HE : -1074 <= E <= e).
  { unfold E, lastPlace. split; [lia |]. apply Z.max_lub; [exact He |].
    assert (Hfl : Qfloor (Qabs q * pow2 1074) = Z.abs m * 2 ^ (e + 1074)).
    { rewrite <- (Qfloor_Z (Z.abs m * 2 ^ (e + 1074))). apply Qfloor_comp.
      unfold q. rewrite Qabs_Qmult, (Qabs_pos (pow2 e)) by apply Qlt_le_weak, pow2_pos.
      rewrite inject_Z_mult, pow2_Z by lia. rewrite pow2_plus.
      rewrite <- Qmult_assoc.
      apply Qmult_comp; [| reflexivity].
      unfold Qabs, inject_Z. reflexivity. }
    rewrite Hfl.
    destruct (Z.eq_dec m 0) as [-> | Hnz]; [simpl; lia |].
    assert (Hlt : Z.abs m * 2 ^ (e + 1074) < 2 ^ (53 + (e + 1074))).
    { rewrite (Z.pow_add_r 2 53) by lia. apply Z.mul_lt_mono_pos_r; [| exact Hm].
      apply Z.pow_pos_nonneg; lia. }
    apply Z.log2_lt_pow2 in Hlt; [lia |].
    apply Z.mul_pos_pos; [lia | apply Z.pow_pos_nonneg; lia]. }
  assert (Hq : (q / pow2 E == inject_Z (m * 2 ^ (e - E)))%Q).
  { unfold q. rewrite inject_Z_mult, pow2_Z, div_pow2 by lia.
    rewrite <- Qmult_assoc, <- pow2_plus.
    replace (e + - E) with (e - E) by lia. reflexivity. }
  rewrite (roundTiesToEven_comp _ _ Hq), roundTiesToEven_Z.
  unfold q. rewrite inject_Z_mult, pow2_Z by lia.
  rewrite <- Qmult_assoc, <- pow2_plus. replace (e - E + E) with e by lia.
  reflexivity.
Qed.

Lemma lastPlace_comp x y : (x == y)%Q -> lastPlace x = lastPlace y.
Proof.
  intros H. unfold lastPlace. f_equal. f_equal. f_equal. apply Qfloor_comp.
  rewrite H. reflexivity.
Qed.

Lemma toDouble_comp x y : (x == y)%Q -> (toDouble x == toDouble y)%Q.
Proof.
  intros H. unfold toDouble. rewrite (lastPlace_comp _ _ H).
  rewrite (roundTiesToEven_comp (x / pow2 (lastPlace y)) (y / pow2 (lastPlace y)));
    [reflexivity | rewrite H; reflexivity].
Qed.

(** The times below 2^52 ms, and the sums of one of them and 0.5 or
    1, are Numbers: these sums are exact. *)
Lemma toDouble_time (t : Z) :
  0 <= t < 2 ^ 52 ->
  (toDouble (inject_Z t + (1 # 2)) == inject_Z t + (1 # 2))%Q
  /\ (toDouble (inject_Z t + 1) == inject_Z t + 1)%Q.
Proof.
  intros Ht. split.
  - assert (E : (inject_Z t + (1 # 2) == inject_Z (2 * t + 1) * pow2 (-1))%Q).
    { rewrite inject_Z_plus, inject_Z_mult. change (pow2 (-1)) with (1 # 2)%Q.
      change (inject_Z 2) with 2%Q. change (inject_Z 1) with 1%Q. ring. }
    rewrite (toDouble_comp _ _ E), E. apply isNumber_scaled; lia.
  - assert (E : (inject_Z t + 1 == inject_Z (t + 1) * pow2 0)%Q).
    { rewrite inject_Z_plus. change (pow2 0) with 1%Q.
      change (inject_Z 1) with 1%Q. ring. }
    rewrite (toDouble_comp _ _ E), E. apply isNumber_scaled; lia.
Qed.

(** ** ChatInterface.js *)

Section MoreChatInterfaceFacts.
Context {host : JsHost}.

(** What one run of [handleSendMessage] on a non-blank message does:
    the three messages it appends, with the clock readings they are
    built from, and the state it leaves. *)
Lemma handleSendMessage_effect w s chatHistory0 settings0 message :
  trim message <> [] ->
  exists s' last,
    handleSendMessage chatHistory0 settings0 message w s = (Returned tt, s')
    /\ chatHistory s'
       = chatHistory s
         ++ [ {| msg_id := JNum (inject_Z (clock w (clockReads s)));
                 msg_type := JStr (lit "user");
                 msg_content := JStr message;
                 msg_sources := JUndefined;
                 msg_timestamp := JStr (DateToISOString (clock w (1 + clockReads s))) |};
              {| msg_id := JNum (toDouble (inject_Z (clock w (2 + clockReads s)) + (1 # 2)));
                 msg_type := JStr (lit "processing");
                 msg_content := JStr (lit "Processing your request...");
                 msg_sources := JUndefined;
                 msg_timestamp := JStr (DateToISOString (clock w (3 + clockReads s))) |};
              last ]
    /\ msg_id last = JNum (toDouble (inject_Z (clock w (4 + clockReads s)) + 1))
    /\ msg_timestamp last = JStr (DateToISOString (clock w (5 + clockReads s)))
    /\ match network w (length (requests s)) (chatRequest message chatHistory0 settings0) with
       | Resolved resp =>
           match get_prop (data resp) (lit "response") with
           | Some text =>
               msg_type last = JStr (lit "bot")
               /\ msg_content last = text
               /\ msg_sources last
                  = js_or (get_prop_opt (data resp) (lit "sources")) (JArr [])
           | None =>
               msg_type last = JStr (lit "error")
               /\ msg_content last = JStr genericErrorText
               /\ msg_sources last = JUndefined
           end
       | Rejected _ =>
           msg_type last = JStr (lit "error")
           /\ msg_content last = JStr genericErrorText
           /\ msg_sources last = JUndefined
       end
    /\ settings s' = settings s
    /\ isLoading s' = false
    /\ isTyping s' = false
    /\ inputMessage s' = []
    /\ requests s' = requests s ++ [chatRequest message chatHistory0 settings0]
    /\ clockReads s' = (6 + clockReads s)%nat.
Proof.
  intros Hmsg. unfold chatRequest.
  unfold handleSendMessage. rewrite (truthy_nonblank _ Hmsg).
  ui_unfold. js_unfold. simpl.
  destruct (network w (length (requests s)) _) as [resp | e] eqn:Hnet; simpl.
  - destruct (get_prop (data resp) (lit "response")) as [r |] eqn:E1; simpl.
    + assert (Hn : ~ nullish (data resp)).
      { intros Hn. apply (get_prop_nullish _ (lit "response")) in Hn. congruence. }
      unfold get_prop_opt.
      destruct (get_prop_defined _ (lit "sources") Hn) as [x ->].
      destruct (get_prop_defined _ (lit "metadata") Hn) as [y ->]. simpl.
      eexists _, _. split; [reflexivity |]. simpl.
      split; [rewrite <- !app_assoc; reflexivity |].
      repeat (split; [reflexivity |]).
      split; [| repeat split; reflexivity].
      split; [reflexivity |]. split; [reflexivity |].
      unfold js_or. destruct (truthy x) eqn:Hx; simpl; rewrite ?Hx; reflexivity.
    + eexists _, _. split; [reflexivity |]. simpl.
      split; [rewrite <- !app_assoc; reflexivity |]. repeat split; reflexivity.
  - destruct (strict_eq_str (err_code e) (lit "ECONNABORTED"));
      [| destruct (err_response e); [| destruct (err_request e)]]; simpl;
      (eexists _, _; split; [reflexivity |]; simpl;
       split; [rewrite <- !app_assoc; reflexivity |]; repeat split; reflexivity).
Qed.

(** X6. On a non-blank message [handleSendMessage] never throws; it
    appends exactly three messages: the user message, whose content is
    the message as typed (not trimmed), the processing message, and one
    message of type 'bot' or 'error'; it makes exactly one request; and
    it ends with the input cleared and both [isLoading] and [isTyping]
    false, whether the request succeeded or not. *)
Theorem handleSendMessage_always w s chatHistory0 settings0 message :
  trim message <> [] ->
  exists s' u p last,
    handleSendMessage chatHistory0 settings0 message w s = (Returned tt, s')
    /\ chatHistory s' = chatHistory s ++ [u; p; last]
    /\ msg_type u = JStr (lit "user")
    /\ msg_content u = JStr message
    /\ msg_type p = JStr (lit "processing")
    /\ (msg_type last = JStr (lit "bot") \/ msg_type last = JStr (lit "error"))
    /\ requests s' = requests s ++ [chatRequest message chatHistory0 settings0]
    /\ inputMessage s' = []
    /\ isLoading s' = false
    /\ isTyping s' = false
    /\ settings s' = settings s.
Proof.
  intros Hmsg.
  destruct (handleSendMessage_effect w s chatHistory0 settings0 message Hmsg)
    as (s' & last & Hrun & Hhist & _ & _ & Hlast & Hset & Hload & Htyping & Hinput & Hreq & _).
  eexists s', _, _, last. split; [exact Hrun |]. split; [exact Hhist |]. simpl.
  repeat (split; [reflexivity |]).
  split; [| by repeat split].
  destruct (network w _ _) as [resp | e].
  - destruct (get_prop (data resp) (lit "response")); [left | right]; apply Hlast.
  - right. apply Hlast.
Qed.

(** X7. The message [handleSendMessage] appends last is of type 'bot'
    exactly when the POST resolves with a body that is neither
    undefined nor null; its content is then the [response] of the body
    and its sources are [sources || []] of the body. *)
Theorem handleSendMessage_bot_message w s chatHistory0 settings0 message :
  trim message <> [] ->
  exists s' u p last,
    handleSendMessage chatHistory0 settings0 message w s = (Returned tt, s')
    /\ chatHistory s' = chatHistory s ++ [u; p; last]
    /\ (msg_type last = JStr (lit "bot")
        <-> exists resp,
              network w (length (requests s)) (chatRequest message chatHistory0 settings0)
                = Resolved resp
              /\ ~ nullish (data resp))
    /\ (forall resp,
          network w (length (requests s)) (chatRequest message chatHistory0 settings0)
            = Resolved resp ->
          ~ nullish (data resp) ->
          msg_content last = get_prop_opt (data resp) (lit "response")
          /\ msg_sources last = js_or (get_prop_opt (data resp) (lit "sources")) (JArr [])).
Proof.
  intros Hmsg.
  destruct (handleSendMessage_effect w s chatHistory0 settings0 message Hmsg)
    as (s' & last & Hrun & Hhist & _ & _ & Hlast & _).
  eexists s', _, _, last. split; [exact Hrun |]. split; [exact Hhist |].
  destruct (network w _ _) as [resp | e].
  - unfold get_prop_opt.
    destruct (get_prop (data resp) (lit "response")) as [text |] eqn:E.
    + assert (Hn : ~ nullish (data resp)).
      { intros Hn. apply (get_prop_nullish _ (lit "response")) in Hn. congruence. }
      destruct Hlast as (Ht & Hc & Hs). split.
      * split; [intros _; exists resp; by split | intros _; exact Ht].
      * intros resp' [= <-] _. rewrite E. by split.
    + apply get_prop_nullish in E. destruct Hlast as (Ht & _). split.
      * split; [rewrite Ht; discriminate |]. intros (resp' & [= <-] & Hn). contradiction.
      * intros resp' [= <-] Hn. contradiction.
  - destruct Hlast as (Ht & _). split.
    + split; [rewrite Ht; discriminate |]. intros (resp & H & _). discriminate H.
    + intros resp H. discriminate H.
Qed.

(** X8. The processing message is never removed: when a second
    message is sent from the history the first exchange left, the
    request carries that history, three turns longer than the one
    before the first exchange, and one of its turns is the
    placeholder 'Processing your request...' in the role of the
    assistant. *)
Theorem processing_placeholder_is_sent w s settings0 first second :
  trim first <> [] ->
  trim second <> [] ->
  exists s1 s2 payload turn,
    handleSendMessage (chatHistory s) settings0 first w s = (Returned tt, s1)
    /\ handleSendMessage (chatHistory s1) settings0 second w s1 = (Returned tt, s2)
    /\ last (requests s2)
       = Some {| req_method := POST; req_url := lit "/api/chat"; req_body := Some payload |}
    /\ length (p_chat_history payload) = (length (chatHistory s) + 3)%nat
    /\ In turn (p_chat_history payload)
    /\ role turn = lit "assistant"
    /\ content turn = JStr (lit "Processing your request...").
Proof.
  intros H1 H2.
  destruct (handleSendMessage_effect w s (chatHistory s) settings0 first H1)
    as (s1 & last1 & Hrun1 & Hhist1 & _).
  destruct (handleSendMessage_effect w s1 (chatHistory s1) settings0 second H2)
    as (s2 & last2 & Hrun2 & _ & _ & _ & _ & _ & _ & _ & _ & Hreq2 & _).
  eexists s1, s2, _, _. split; [exact Hrun1 |]. split; [exact Hrun2 |].
  rewrite Hreq2, last_snoc. unfold chatRequest. split; [reflexivity |].
  unfold chatPayload; simpl. rewrite Hhist1.
  unfold formatChatHistory. rewrite length_map, length_app. simpl.
  split; [reflexivity |]. rewrite map_app. simpl.
  split; [apply in_or_app; right; right; left; reflexivity |].
  split; reflexivity.
Qed.

(** X9. When the six clock readings of an exchange do not go
    backwards and lie between 0 and 2^52 milliseconds (2^52 excluded),
    the three messages of the exchange get pairwise different ids: the
    user message the time of its creation, the processing message a
    time plus 0.5, the last message a later time plus 1, each of these
    sums being exact. *)
Theorem exchange_ids_distinct w s chatHistory0 settings0 message :
  (forall i j : nat,
     (clockReads s <= i)%nat -> (i <= j)%nat -> (j < 6 + clockReads s)%nat ->
     clock w i <= clock w j) ->
  (forall i : nat,
     (clockReads s <= i)%nat -> (i < 6 + clockReads s)%nat ->
     0 <= clock w i < 2 ^ 52) ->
  trim message <> [] ->
  exists s' u p last a b c,
    handleSendMessage chatHistory0 settings0 message w s = (Returned tt, s')
    /\ chatHistory s' = chatHistory s ++ [u; p; last]
    /\ msg_id u = JNum a /\ msg_id p = JNum b /\ msg_id last = JNum c
    /\ (a == inject_Z (clock w (clockReads s)))%Q
    /\ (b == inject_Z (clock w (2 + clockReads s)) + (1 # 2))%Q
    /\ (c == inject_Z (clock w (4 + clockReads s)) + 1)%Q
    /\ ~ (a == b)%Q /\ ~ (b == c)%Q /\ ~ (a == c)%Q.
Proof.
  intros Hclock Hrange Hmsg.
  destruct (handleSendMessage_effect w s chatHistory0 settings0 message Hmsg)
    as (s' & last & Hrun & Hhist & Hid & _).
  eexists s', _, _, last, _, _, _. split; [exact Hrun |]. split; [exact Hhist |].
  split; [reflexivity |]. split; [reflexivity |]. split; [exact Hid |].
  pose proof (Hclock (clockReads s) (2 + clockReads s)%nat ltac:(lia) ltac:(lia) ltac:(lia))
    as H02.
  pose proof (Hclock (2 + clockReads s)%nat (4 + clockReads s)%nat
                ltac:(lia) ltac:(lia) ltac:(lia)) as H24.
  destruct (toDouble_time _ (Hrange (2 + clockReads s)%nat ltac:(lia) ltac:(lia)))
    as [Hb _].
  destruct (toDouble_time _ (Hrange (4 + clockReads s)%nat ltac:(lia) ltac:(lia)))
    as [_ Hc].
  split; [reflexivity |]. split; [exact Hb |]. split; [exact Hc |].
  rewrite Hb, Hc. unfold Qeq. simpl in H02, H24 |- *. lia.
Qed.

End MoreChatInterfaceFacts.

(** ** MessageInput.js *)

Lemma trimStart_nil_blank s : trimStart s = [] -> whitespaceOnly s.
Proof.
  unfold whitespaceOnly. induction s as [| c s IH]; simpl; [constructor |].
  destruct (is_white_space c) eqn:E; [| discriminate].
  intros H. constructor; [exact E | exact (IH H)].
Qed.

Lemma trimStart_suffix s : exists blank, s = blank ++ trimStart s /\ whitespaceOnly blank.
Proof.
  induction s as [| c s (blank & Hs & Hb)]; simpl.
  - exists []. split; [reflexivity | constructor].
  - destruct (is_white_space c) eqn:E.
    + exists (c :: blank). split; [simpl; congruence | by constructor].
    + exists []. split; [reflexivity | constructor].
Qed.

(** A string trims to the empty string exactly when it is empty or
    made of white space only. *)
Lemma trim_nil_iff s : trim s = [] <-> whitespaceOnly s.
Proof.
  split; [| apply trim_blank].
  unfold trim, trimEnd. intros H.
  apply (f_equal (@rev N)) in H. rewrite rev_involutive in H. simpl in H.
  apply trimStart_nil_blank in H.
  assert (Hs : whitespaceOnly (trimStart s)).
  { unfold whitespaceOnly in *. rewrite <- (rev_involutive (trimStart s)).
    apply Forall_rev. exact H. }
  destruct (trimStart_suffix s) as (blank & Heq & Hb).
  rewrite Heq. apply Forall_app. by split.
Qed.

Lemma handleSend_blocked value disabled :
  whitespaceOnly value \/ disabled = true ->
  forall onSend w s, handleSend value disabled onSend w s = (Returned tt, s).
Proof.
  intros H onSend w s. unfold handleSend. destruct H as [H | ->].
  - rewrite (trim_blank value H). reflexivity.
  - rewrite andb_false_r. reflexivity.
Qed.

(** X10. The send button is disabled exactly when the input is empty
    or white space only, or the component is disabled; in that case
    [handleSend] does nothing, whatever [onSend] is, and otherwise
    [handleSend] is the call [onSend(value)] with the value as typed. *)
Theorem send_button_matches_handleSend (value : jstring) (disabled : bool) :
  (sendButton_disabled value disabled = true <-> whitespaceOnly value \/ disabled = true)
  /\ (sendButton_disabled value disabled = true ->
      forall onSend w s, handleSend value disabled onSend w s = (Returned tt, s))
  /\ (sendButton_disabled value disabled = false ->
      forall onSend, handleSend value disabled onSend = onSend value).
Proof.
  unfold sendButton_disabled, handleSend. simpl.
  destruct (trim value) as [| c t] eqn:E; simpl.
  - split; [| split].
    + split; [intros _; left; by apply trim_nil_iff | reflexivity].
    + reflexivity.
    + discriminate.
  - assert (Hnb : ~ whitespaceOnly value).
    { intros H. apply trim_nil_iff in H. congruence. }
    destruct disabled; simpl; (split; [| split]); try reflexivity; try discriminate.
    + split; [by right | reflexivity].
    + split; [discriminate |]. intros [H | H]; [contradiction | discriminate].
Qed.

(** X11. [handleKeyPress] prevents the default action exactly for
    Enter without Shift, also when the input is blank or disabled and
    nothing is sent; for Shift+Enter and every other key it neither
    prevents the default nor sends. *)
Theorem handleKeyPress_enter value disabled onSend (e : KeyEvent) :
  (fst (handleKeyPress value disabled onSend e) = true
   <-> key e = lit "Enter" /\ shiftKey e = false)
  /\ (key e = lit "Enter" -> shiftKey e = false ->
      snd (handleKeyPress value disabled onSend e) = handleSend value disabled onSend)
  /\ (key e = lit "Enter" -> shiftKey e = false ->
      whitespaceOnly value \/ disabled = true ->
      forall w s, snd (handleKeyPress value disabled onSend e) w s = (Returned tt, s))
  /\ (key e <> lit "Enter" \/ shiftKey e = true ->
      forall w s, snd (handleKeyPress value disabled onSend e) w s = (Returned tt, s)).
Proof.
  unfold handleKeyPress, jstring_eqb.
  destruct (bool_decide_reflect (key e = lit "Enter")) as [Hk | Hk];
    destruct (shiftKey e); simpl.
  - split; [split; [discriminate | intros [_ H]; discriminate H] |].
    split; [discriminate |]. split; [discriminate | reflexivity].
  - split; [by split |]. split; [reflexivity |]. split.
    + intros _ _ Hblank w s.
      by apply handleSend_blocked.
    + intros [H | H]; [contradiction | discriminate].
  - split; [split; [discriminate | intros [H _]; contradiction] |].
    split; [contradiction |]. split; [contradiction | reflexivity].
  - split; [split; [discriminate | intros [H _]; contradiction] |].
    split; [contradiction |]. split; [contradiction | reflexivity].
Qed.

(** ** MessageList.js and Message.js *)

Section MessageViewFacts.
Context {host : JsHost}.

(** X12. The list [MessageList] renders is never empty: it is the
    chat history when there is one, and otherwise the single welcome
    message, a 'bot' message with id 'welcome' and no Sources block;
    rendering reads the clock once and leaves the chat history and the
    requests as they are, so the welcome message is never stored or
    sent. *)
Theorem displayMessages_never_empty w s (messages : list Message) :
  exists shown s',
    displayMessages messages w s = (Returned shown, s')
    /\ shown <> []
    /\ (messages <> [] -> shown = messages)
    /\ (messages = [] ->
        exists welcome,
          shown = [welcome]
          /\ msg_id welcome = JStr (lit "welcome")
          /\ msg_type welcome = JStr (lit "bot")
          /\ Message_sources welcome = NoSourcesSection)
    /\ chatHistory s' = chatHistory s
    /\ requests s' = requests s
    /\ clockReads s' = S (clockReads s).
Proof.
  unfold displayMessages. ui_unfold. js_unfold. simpl.
  eexists _, _. split; [reflexivity |]. simpl.
  destruct messages as [| m ms]; simpl.
  - split; [discriminate |]. split; [congruence |].
    split; [| repeat split]. intros _. eexists. repeat split.
  - split; [discriminate |]. split; [reflexivity |].
    split; [discriminate | repeat split].
Qed.

Lemma mapM_renderSource l :
  Forall (fun src => ~ nullish src) l ->
  mapM renderSource l
  = Some (map (fun src => (get_prop_opt src (lit "url"),
                           js_or (get_prop_opt src (lit "title"))
                                 (get_prop_opt src (lit "url")))) l).
Proof.
  induction 1 as [| src l Hsrc _ IH]; [reflexivity |].
  cbn [mapM map]. rewrite IH. unfold renderSource, get_prop_opt.
  destruct (get_prop_defined src (lit "url") Hsrc) as [u ->].
  destruct (get_prop_defined src (lit "title") Hsrc) as [t ->].
  reflexivity.
Qed.

Lemma mapM_renderSource_nullish l :
  Exists nullish l -> mapM renderSource l = None.
Proof.
  induction 1 as [src l Hsrc | src l _ IH]; cbn [mapM].
  - unfold renderSource. apply (get_prop_nullish _ (lit "url")) in Hsrc.
    rewrite Hsrc. reflexivity.
  - rewrite IH. destruct (renderSource src); reflexivity.
Qed.

Lemma sourcesGuard_array m l :
  msg_type m = JStr (lit "bot") -> msg_sources m = JArr l -> l <> [] ->
  sourcesGuard m = true.
Proof.
  intros Ht Hs Hl. unfold sourcesGuard. rewrite Ht, Hs. simpl.
  destruct l; [congruence | reflexivity].
Qed.

(** X13. For a 'bot' message whose sources are a non-empty array of
    values that are neither undefined nor null, [Message] renders one
    link per source, in order, whose address is [source.url] and whose
    text is [source.title], or [source.url] when the title is missing
    or empty.  When an element of the array is undefined or null, or
    when the sources are a non-empty string, rendering throws. *)
Theorem Message_sources_links (m : Message) :
  msg_type m = JStr (lit "bot") ->
  (forall l,
     msg_sources m = JArr l -> l <> [] -> Forall (fun src => ~ nullish src) l ->
     Message_sources m
     = SourcesList
         (map (fun src => (get_prop_opt src (lit "url"),
                           js_or (get_prop_opt src (lit "title"))
                                 (get_prop_opt src (lit "url")))) l))
  /\ (forall l,
        msg_sources m = JArr l -> Exists nullish l -> Message_sources m = RenderError)
  /\ (forall str,
        msg_sources m = JStr str -> str <> [] -> Message_sources m = RenderError).
Proof.
  intros Ht. split; [| split].
  - intros l Hs Hl Hok. unfold Message_sources.
    rewrite (sourcesGuard_array m l Ht Hs Hl), Hs, (mapM_renderSource l Hok). reflexivity.
  - intros l Hs Hbad. unfold Message_sources.
    assert (Hl : l <> []) by (intros ->; inversion Hbad).
    rewrite (sourcesGuard_array m l Ht Hs Hl), Hs, (mapM_renderSource_nullish l Hbad).
    reflexivity.
  - intros str Hs Hstr. unfold Message_sources, sourcesGuard. rewrite Ht, Hs. simpl.
    destruct str; [congruence | reflexivity].
Qed.

End MessageViewFacts.

(** ** Sidebar.js *)

Lemma conversations_fold h l : forall n acc,
  fold_left (conversations_step h) (imap (fun i => pair (n + i)%nat) l) acc
  = acc ++ entries_from h n l.
Proof.
  induction l as [| m l IH]; intros n acc.
  - simpl. by rewrite app_nil_r.
  - rewrite imap_cons. cbn [fold_left entries_from].
    rewrite (imap_ext _ (fun i => pair (S n + i)%nat) l)
      by (intros i x _; simpl; f_equal; lia).
    rewrite IH. unfold conversations_step. rewrite Nat.add_0_r.
    destruct (Nat.eqb (n mod 2) 0).
    + by rewrite <- app_assoc.
    + reflexivity.
Qed.

Lemma parity_next n : Nat.eqb (S n mod 2) 0 = negb (Nat.eqb (n mod 2) 0).
Proof.
  pose proof (Nat.div_mod_eq n 2) as Hn.
  pose proof (Nat.mod_upper_bound n 2 ltac:(lia)) as Hn'.
  pose proof (Nat.div_mod_eq (S n) 2) as Hs.
  pose proof (Nat.mod_upper_bound (S n) 2 ltac:(lia)) as Hs'.
  destruct (Nat.eqb_spec (n mod 2) 0) as [H | H];
    destruct (Nat.eqb_spec (S n mod 2) 0) as [H' | H']; simpl; try reflexivity; lia.
Qed.

Lemma entries_from_lookup h l : forall n k,
  entries_from h n l !! k
  = if Nat.eqb (n mod 2) 0
    then m ← l !! (2 * k)%nat;
         Some {| conv_id := (n + 2 * k)%nat; userMessage := m;
                 botMessage := h !! (n + 2 * k + 1)%nat |}
    else m ← l !! (2 * k + 1)%nat;
         Some {| conv_id := (n + 2 * k + 1)%nat; userMessage := m;
                 botMessage := h !! (n + 2 * k + 2)%nat |}.
Proof.
  induction l as [| m l IH]; intros n k.
  - cbn [entries_from]. rewrite !lookup_nil. destruct (Nat.eqb (n mod 2) 0); reflexivity.
  - cbn [entries_from]. specialize (IH (S n)). rewrite parity_next in IH.
    destruct (Nat.eqb (n mod 2) 0); cbn [negb] in IH.
    + destruct k as [| k].
      * simpl. rewrite Nat.add_0_r. reflexivity.
      * cbn [app lookup list_lookup]. rewrite IH.
        replace (2 * S k)%nat with (S (2 * k + 1)) by lia. cbn [lookup list_lookup].
        destruct (l !! (2 * k + 1)%nat); cbn; [| reflexivity].
        f_equal. f_equal; [lia |]. f_equal. lia.
    + cbn [app]. rewrite IH.
      replace (2 * k + 1)%nat with (S (2 * k)) by lia. cbn [lookup list_lookup].
      destruct (l !! (2 * k)%nat); cbn; [| reflexivity].
      f_equal. f_equal; [lia |]. f_equal. lia.
Qed.

Lemma entries_from_length h l : forall n,
  length (entries_from h n l)
  = if Nat.eqb (n mod 2) 0 then ((length l + 1) / 2)%nat else (length l / 2)%nat.
Proof.
  induction l as [| m l IH]; intros n.
  - cbn [entries_from length]. destruct (Nat.eqb (n mod 2) 0); reflexivity.
  - cbn [entries_from]. rewrite length_app, IH, parity_next.
    destruct (Nat.eqb (n mod 2) 0); cbn [negb length].
    + replace (S (length l) + 1)%nat with (length l + 1 * 2)%nat by lia.
      rewrite Nat.div_add by lia. lia.
    + replace (S (length l)) with (length l + 1)%nat by lia. reflexivity.
Qed.

(** X14. The history tab groups the messages by position, not by
    type: entry [k] is made of the messages at the positions [2k] and
    [2k + 1] of the chat history (the second is missing when the
    history ends at [2k]), its id is [2k], and there are as many
    entries as half the number of messages, rounded up. *)
Theorem conversations_by_position (chatHistory : list Message) :
  length (conversations chatHistory) = ((length chatHistory + 1) / 2)%nat
  /\ forall k,
       conversations chatHistory !! k
       = (m ← chatHistory !! (2 * k)%nat;
          Some {| conv_id := (2 * k)%nat;
                  userMessage := m;
                  botMessage := chatHistory !! (2 * k + 1)%nat |}).
Proof.
  unfold conversations.
  rewrite (imap_ext pair (fun i => pair (0 + i)%nat) chatHistory) by reflexivity.
  rewrite conversations_fold. simpl. split.
  - apply (entries_from_length chatHistory chatHistory 0).
  - intros k. apply (entries_from_lookup chatHistory chatHistory 0 k).
Qed.

Example conversations_example :
  map (fun c => (conv_id c, msg_type (userMessage c), option_map msg_type (botMessage c)))
    (conversations [mkMessage "user" "a"; mkMessage "processing" "b"; mkMessage "bot" "c";
                    mkMessage "user" "d"; mkMessage "processing" "e"])
  = [ (0%nat, JStr (lit "user"), Some (JStr (lit "processing")));
      (2%nat, JStr (lit "bot"), Some (JStr (lit "user")));
      (4%nat, JStr (lit "processing"), None) ].
Proof. reflexivity. Qed.

Section SidebarFacts.
Context {host : JsHost}.

(** X15. After the first exchange of a chat the history tab shows two
    entries: the user message paired with the processing message, and
    the reply (the answer or the error message) as an entry of its
    own, titled by the content of the reply. *)
Theorem first_exchange_in_history_tab w s settings0 message :
  chatHistory s = [] ->
  trim message <> [] ->
  exists s' u p last,
    handleSendMessage [] settings0 message w s = (Returned tt, s')
    /\ conversations (chatHistory s')
       = [ {| conv_id := 0; userMessage := u; botMessage := Some p |};
           {| conv_id := 2; userMessage := last; botMessage := None |} ]
    /\ msg_content u = JStr message
    /\ msg_type p = JStr (lit "processing")
    /\ msg_type last <> JStr (lit "user")
    /\ map conversation_title (conversations (chatHistory s'))
       = [ JStr message; js_or (msg_content last) (JStr (lit "User message")) ].
Proof.
  intros Hempty Hmsg.
  destruct (handleSendMessage_effect w s [] settings0 message Hmsg)
    as (s' & last & Hrun & Hhist & _ & _ & Hlast & _).
  rewrite Hempty in Hhist. simpl in Hhist.
  eexists s', _, _, last. split; [exact Hrun |]. rewrite Hhist.
  split; [reflexivity |]. split; [reflexivity |]. split; [reflexivity |]. split.
  - destruct (network w _ _) as [resp | e];
      [destruct (get_prop (data resp) (lit "response")) |];
      destruct Hlast as (-> & _); discriminate.
  - unfold conversation_title. simpl. f_equal.
    unfold js_or. simpl. destruct (trim message) eqn:E; [congruence |].
    destruct message; [discriminate E | reflexivity].
Qed.

(** X16. A control of the settings panel changes the one setting it
    stands for and nothing else of the state: the model becomes the
    chosen option, the temperature and the token limit the value of
    their slider, the RAG flag its negation; so switching RAG twice
    gives back the settings as they were. *)
Theorem SettingsPanel_changes_one_setting w s (e : PanelEvent) :
  exists s',
    SettingsPanel_handle (settings s) e w s = (Returned tt, s')
    /\ chatHistory s' = chatHistory s
    /\ isLoading s' = isLoading s
    /\ inputMessage s' = inputMessage s
    /\ isTyping s' = isTyping s
    /\ requests s' = requests s
    /\ console s' = console s
    /\ clockReads s' = clockReads s
    /\ settings s'
       = match e with
         | SelectModel o =>
             {| model := option_value o; temperature := temperature (settings s);
                maxTokens := maxTokens (settings s); enableRAG := enableRAG (settings s) |}
         | SlideTemperature k =>
             {| model := model (settings s);
                temperature := range_value temperatureRange k;
                maxTokens := maxTokens (settings s); enableRAG := enableRAG (settings s) |}
         | SlideMaxTokens k =>
             {| model := model (settings s); temperature := temperature (settings s);
                maxTokens := parseInt (range_value maxTokensRange k);
                enableRAG := enableRAG (settings s) |}
         | ToggleRAG =>
             {| model := model (settings s); temperature := temperature (settings s);
                maxTokens := maxTokens (settings s);
                enableRAG := negb (enableRAG (settings s)) |}
         end
    /\ settings
         (snd (SettingsPanel_handle
                 (settings (snd (SettingsPanel_handle (settings s) ToggleRAG w s)))
                 ToggleRAG w
                 (snd (SettingsPanel_handle (settings s) ToggleRAG w s))))
       = settings s.
Proof.
  destruct s as [h [m t n r] l i ty rq c reads].
  destruct e; (eexists; split; [reflexivity |]; simpl; repeat (split; [reflexivity |]));
    unfold spread; simpl; rewrite negb_involutive; reflexivity.
Qed.


End SidebarFacts.

(** ** TextExtraction.js and the two services' handling of data URLs *)

Lemma handleFileSelect_accepted createObjectURL (f : File) (st : TextExtraction.State) :
  acceptedFile f ->
  TextExtraction.handleFileSelect createObjectURL (Some f) st
  = {| TextExtraction.selectedFile := Some f;
       TextExtraction.previewUrl := Some (createObjectURL f);
       TextExtraction.extractedText := [];
       TextExtraction.isProcessing := TextExtraction.isProcessing st;
       TextExtraction.error := [];
       TextExtraction.ocrOptions := TextExtraction.ocrOptions st;
       TextExtraction.extractionResult := JNull;
       TextExtraction.availableEngines := TextExtraction.availableEngines st;
       TextExtraction.serviceStatus := TextExtraction.serviceStatus st |}.
Proof.
  unfold acceptedFile, TextExtraction.handleFileSelect, TextExtraction.maxFileSize.
  intros [Htype Hsize]. rewrite Htype. simpl.
  destruct (Z.ltb_spec (10 * 1024 * 1024) (file_size f)); [lia | reflexivity].
Qed.

(** X18. [handleFileSelect] takes a file exactly when its type starts
    with 'image/' and its size is at most 10485760 bytes (the limit
    itself is accepted): the file becomes the selection, the error and
    the earlier text and result are cleared.  Any other file only sets
    a non-empty error: the selection, the preview, the text and the
    result stay what they were, so an earlier selection survives; and
    without a file nothing changes. *)
Theorem handleFileSelect_accepts createObjectURL (f : File) (st : TextExtraction.State) :
  (acceptedFile f ->
   TextExtraction.handleFileSelect createObjectURL (Some f) st
   = {| TextExtraction.selectedFile := Some f;
        TextExtraction.previewUrl := Some (createObjectURL f);
        TextExtraction.extractedText := [];
        TextExtraction.isProcessing := TextExtraction.isProcessing st;
        TextExtraction.error := [];
        TextExtraction.ocrOptions := TextExtraction.ocrOptions st;
        TextExtraction.extractionResult := JNull;
        TextExtraction.availableEngines := TextExtraction.availableEngines st;
        TextExtraction.serviceStatus := TextExtraction.serviceStatus st |})
  /\ (~ acceptedFile f ->
      exists msg,
        msg <> []
        /\ TextExtraction.handleFileSelect createObjectURL (Some f) st
           = TextExtraction.setError msg st)
  /\ TextExtraction.handleFileSelect createObjectURL None st = st.
Proof.
  split; [apply handleFileSelect_accepted | split; [| reflexivity]].
  unfold acceptedFile, TextExtraction.handleFileSelect, TextExtraction.maxFileSize.
  - intros Hno. destruct (startsWith (file_type f) (lit "image/")) eqn:Htype; simpl.
    + destruct (Z.ltb_spec (10 * 1024 * 1024) (file_size f)).
      * eexists. split; [| reflexivity]. discriminate.
      * exfalso. apply Hno. split; [reflexivity | lia].
    + eexists. split; [| reflexivity]. discriminate.
Qed.

Lemma handleFileSelect_accepts_witness :
  TextExtraction.selectedFile
    (TextExtraction.handleFileSelect (fun f => lit "blob:" ++ file_name f)
       (Some {| file_name := lit "scan.png"; file_type := lit "image/png";
                file_size := 10485760 |})
       TextExtraction.initialState)
  = Some {| file_name := lit "scan.png"; file_type := lit "image/png";
            file_size := 10485760 |}.
Proof.
  rewrite (proj1 (handleFileSelect_accepts (fun f => lit "blob:" ++ file_name f)
                    {| file_name := lit "scan.png"; file_type := lit "image/png";
                       file_size := 10485760 |}
                    TextExtraction.initialState)
                 ltac:(split; [reflexivity | simpl; lia])).
  reflexivity.
Defined.

(** X19. [handleClear] undoes a selection: clearing after
    [handleFileSelect], whatever the file was, gives the state that
    clearing alone gives, with no file, no preview, no text, no result
    and no error, and with the Extract button disabled; and once an
    accepted file is selected while nothing is being processed, the
    Extract button is enabled. *)
Theorem handleClear_resets createObjectURL (file : option File) (st : TextExtraction.State) :
  TextExtraction.handleClear (TextExtraction.handleFileSelect createObjectURL file st)
  = TextExtraction.handleClear st
  /\ TextExtraction.selectedFile (TextExtraction.handleClear st) = None
  /\ TextExtraction.error (TextExtraction.handleClear st) = []
  /\ TextExtraction.extractButton_disabled (TextExtraction.handleClear st) = true
  /\ (forall f,
        file = Some f -> acceptedFile f -> TextExtraction.isProcessing st = false ->
        TextExtraction.extractButton_disabled
          (TextExtraction.handleFileSelect createObjectURL file st) = false).
Proof.
  split; [| split; [reflexivity | split; [reflexivity | split; [reflexivity |]]]].
  - destruct file as [f |]; [| reflexivity]. unfold TextExtraction.handleFileSelect.
    destruct (negb _); [reflexivity |]. destruct (Z.ltb _ _); reflexivity.
  - intros f -> Hok Hidle.
    rewrite (handleFileSelect_accepted createObjectURL f st Hok).
    unfold TextExtraction.extractButton_disabled. simpl. exact Hidle.
Qed.

(** X20. The name [handleDownloadText] gives the download never
    contains a colon, whatever the text of the date; it is the prefix
    and [.txt] around at most 19 characters of that text. *)
Theorem downloadName_has_no_colon (iso : jstring) :
  Forall (fun c => c <> 0x3A%N) (TextExtraction.downloadName iso)
  /\ length (TextExtraction.downloadName iso) = (19 + Nat.min 19 (length iso))%nat
  /\ exists stamp,
       TextExtraction.downloadName iso = lit "extracted_text_" ++ stamp ++ lit ".txt"
       /\ length stamp = Nat.min 19 (length iso).
Proof.
  unfold TextExtraction.downloadName. split; [| split].
  - apply Forall_app. split; [repeat constructor; discriminate |].
    apply Forall_app. split; [| repeat constructor; discriminate].
    apply List.Forall_map. apply Forall_forall. intros c _.
    destruct (N.eqb_spec c 58); [discriminate | assumption].
  - rewrite !length_app, length_map, length_take. simpl. lia.
  - eexists. split; [reflexivity |]. rewrite length_map, length_take. reflexivity.
Qed.

Example downloadName_example :
  TextExtraction.downloadName (lit "2024-05-06T07:08:09.123Z")
  = lit "extracted_text_2024-05-06T07-08-09.txt".
Proof. reflexivity. Qed.

Lemma upToComma_app m rest :
  commaFree m ->
  FaceRecognitionService.upToComma (m ++ 0x2C%N :: rest) = (m, 0x2C%N :: rest).
Proof.
  induction 1 as [| c m Hc _ IH]; [reflexivity |].
  cbn [app FaceRecognitionService.upToComma]. rewrite IH.
  destruct (N.eqb_spec c 44); [contradiction | reflexivity].
Qed.

Lemma upToComma_commaFree p :
  commaFree p -> FaceRecognitionService.upToComma p = (p, []).
Proof.
  induction 1 as [| c p Hc _ IH]; [reflexivity |].
  cbn [FaceRecognitionService.upToComma]. rewrite IH.
  destruct (N.eqb_spec c 44); [contradiction | reflexivity].
Qed.

(** X21. From a data URL [data:<type>,<payload>], whose type is not
    empty and has no comma, [extractTextFromFile] posts exactly the
    payload as [image_data]; [imageToBase64] resolves to the same
    payload when the payload has no comma (as Base64 text has none),
    and to the part of the payload before its first comma otherwise.
    A string that does not start with [data:] is posted as it is. *)
Theorem data_url_payload (type payload : jstring) :
  type <> [] ->
  commaFree type ->
  TextExtraction.image_data (lit "data:" ++ type ++ 0x2C%N :: payload) = payload
  /\ FaceRecognitionService.imageToBase64_result (lit "data:" ++ type ++ 0x2C%N :: payload)
     = Some (fst (FaceRecognitionService.upToComma payload))
  /\ (commaFree payload ->
      FaceRecognitionService.imageToBase64_result
        (lit "data:" ++ type ++ 0x2C%N :: payload)
      = Some payload)
  /\ (forall s, startsWith s (lit "data:") = false -> TextExtraction.image_data s = s).
Proof.
  intros Hne Hfree.
  assert (Hpre : commaFree (lit "data:" ++ type)).
  { apply Forall_app. split; [repeat constructor; discriminate | exact Hfree]. }
  split; [| split; [| split]].
  - unfold TextExtraction.image_data.
    change (startsWith (lit "data:" ++ type ++ 0x2C%N :: payload) (lit "data:")) with true.
    change (drop 5 (lit "data:" ++ type ++ 0x2C%N :: payload))
      with (type ++ 0x2C%N :: payload).
    cbn iota. rewrite (upToComma_app type payload Hfree).
    destruct type; [congruence | reflexivity].
  - unfold FaceRecognitionService.imageToBase64_result.
    rewrite app_assoc, (upToComma_app _ payload Hpre). reflexivity.
  - intros Hp. unfold FaceRecognitionService.imageToBase64_result.
    rewrite app_assoc, (upToComma_app _ payload Hpre). simpl.
    rewrite (upToComma_commaFree payload Hp). reflexivity.
  - intros s Hs. unfold TextExtraction.image_data. rewrite Hs. reflexivity.
Qed.

Lemma data_url_payload_witness :
  TextExtraction.image_data (lit "data:image/png;base64,iVBORw0KGgo=") = lit "iVBORw0KGgo="
  /\ FaceRecognitionService.imageToBase64_result (lit "data:image/png;base64,iVBORw0KGgo=")
     = Some (lit "iVBORw0KGgo=").
Proof.
  destruct (data_url_payload (lit "image/png;base64") (lit "iVBORw0KGgo=")
              ltac:(discriminate) ltac:(repeat constructor; discriminate))
    as (Himage & _ & Hface & _).
  split; [exact Himage |]. apply Hface. repeat constructor; discriminate.
Defined.

(** ** The face recognition service and the upload *)

(** X22. [getRegisteredUsers] makes exactly one request, the GET of
    /api/face/users; when it resolves, the body is returned as it is,
    also when it is undefined or null, and nothing is logged; when it
    is rejected, the error thrown has the same fixed text whatever the
    rejection was. *)
Theorem getRegisteredUsers_outcome w s :
  requests (snd (FaceRecognitionService.getRegisteredUsers w s)) = requests s ++ [usersRequest]
  /\ (forall resp,
        network w (length (requests s)) usersRequest = Resolved resp ->
        fst (FaceRecognitionService.getRegisteredUsers w s) = Returned (data resp)
        /\ console (snd (FaceRecognitionService.getRegisteredUsers w s)) = console s)
  /\ (forall e,
        network w (length (requests s)) usersRequest = Rejected e ->
        fst (FaceRecognitionService.getRegisteredUsers w s)
        = Threw (ErrorObj (lit "Failed to fetch registered users."))
        /\ console (snd (FaceRecognitionService.getRegisteredUsers w s))
           = console s
             ++ [(LevelError,
                  [LogStr (lit "FaceRecognition: Get users error:");
                   LogThrown (AxiosErrorObj e)])]).
Proof.
  unfold FaceRecognitionService.getRegisteredUsers, usersRequest. js_unfold. simpl.
  destruct (network w _ _) as [resp | e]; simpl.
  - split; [reflexivity |]. split; [| intros e H; discriminate H].
    intros resp' [= <-]. by split.
  - split; [reflexivity |]. split; [intros resp H; discriminate H |].
    intros e' [= <-]. by split.
Qed.

Section FaceServiceFacts.
Context {host : JsHost}.
Variable face_network : nat -> jstring -> JsValue -> AxiosOutcome.




End FaceServiceFacts.

Section UploadFacts.
Variable upload_network : nat -> File -> AxiosOutcome.

(** X25. [uploadDocument] posts the file to /api/upload, once, in
    every case.  It returns the body of the answer as it is when the
    upload resolves; when it is rejected, for whatever reason, it
    throws an [Error] with one fixed text, and the rejection itself
    only reaches the console.  The state of the components stays as
    it is. *)
Theorem uploadDocument_outcome w s (file : File) :
  requests (snd (uploadDocument upload_network file w s))
  = requests s ++ [post_entry (lit "/api/upload")]
  /\ reactState_unchanged s (snd (uploadDocument upload_network file w s))
  /\ (forall resp,
        upload_network (length (requests s)) file = Resolved resp ->
        fst (uploadDocument upload_network file w s) = Returned (data resp)
        /\ console (snd (uploadDocument upload_network file w s)) = console s)
  /\ (forall e,
        upload_network (length (requests s)) file = Rejected e ->
        fst (uploadDocument upload_network file w s)
        = Threw (ErrorObj (lit "Failed to upload document. Please try again."))
        /\ console (snd (uploadDocument upload_network file w s))
           = console s
             ++ [(LevelError,
                  [LogStr (lit "Document upload error:"); LogThrown (AxiosErrorObj e)])]).
Proof.
  unfold uploadDocument, upload_post, reactState_unchanged. js_unfold.
  split; [| split; [| split]].
  - destruct (upload_network _ _); reflexivity.
  - destruct (upload_network _ _); simpl; repeat split.
  - intros resp ->. split; reflexivity.
  - intros e ->. split; reflexivity.
Qed.

End UploadFacts.

(** ** chatService.js: the mock response *)

(** There is no Number between the largest draw and 1. *)
Lemma randomDraw_le x : randomDraw x -> (0 <= x)%Q /\ (x <= largestDraw)%Q.
Proof.
  intros (Hnum & H0 & H1). split; [exact H0 |].
  destruct (Qlt_le_dec largestDraw x) as [Hgt | Hle]; [exfalso | exact Hle].
  unfold largestDraw in Hgt. change (pow2 (-53)) with (1 # 9007199254740992)%Q in Hgt.
  assert (He : lastPlace x = -53).
  { unfold lastPlace. rewrite Qabs_pos by exact H0.
    assert (Hlog : Z.log2 (Qfloor (x * pow2 1074)) = 1073).
    { apply Z.log2_unique; [lia |]. split.
      - rewrite <- (Qfloor_Z (2 ^ 1073)). apply Qfloor_resp_le.
        rewrite (pow2_Z 1073) by lia.
        change (pow2 1074) with (pow2 (1 + 1073)). rewrite pow2_plus.
        change (pow2 1) with 2%Q. rewrite Qmult_assoc.
        rewrite <- (Qmult_1_l (pow2 1073)) at 1.
        apply Qmult_le_compat_r; [lra | apply Qlt_le_weak, pow2_pos].
      - rewrite Zlt_Qlt. eapply Qle_lt_trans; [apply Qfloor_le |].
        change (Z.succ 1073) with 1074. rewrite (pow2_Z 1074) by lia.
        apply Qlt_le_trans with (1 * pow2 1074)%Q;
          [apply Qmult_lt_compat_r; [apply pow2_pos | exact H1] |].
        rewrite Qmult_1_l. apply Qle_refl. }
    rewrite Hlog. reflexivity. }
  unfold isNumber, toDouble in Hnum. rewrite He in Hnum.
  set (k := roundTiesToEven (x / pow2 (-53))) in Hnum.
  change (pow2 (-53)) with (1 # 9007199254740992)%Q in Hnum.
  assert (Hlo : (inject_Z 9007199254740991 < inject_Z k)%Q).
  { change (inject_Z 9007199254740991) with 9007199254740991%Q. lra. }
  assert (Hhi : (inject_Z k < inject_Z 9007199254740992)%Q).
  { change (inject_Z 9007199254740992) with 9007199254740992%Q. lra. }
  rewrite <- Zlt_Qlt in Hlo, Hhi. lia.
Qed.

(** X26. With every random number a Number in [0, 1),
    [getMockResponse] waits between 1000 and 3000 milliseconds and
    reports a processing time between 0.5 and 2.5, both ends
    included (rounding reaches 3000 and 2.5 at the largest draw), and
    a whole number of tokens between 50 and 149; its sources are
    always the one mock source; and the greeting wins over the help
    text: a message whose lower-case form contains 'hello' or 'hi'
    gets the greeting even when it also contains 'help'. *)
Theorem getMockResponse_bounds toLowerCase (message : jstring) (d : MockDraws) :
  randomDraw (delay_draw d) ->
  randomDraw (time_draw d) ->
  randomDraw (tokens_draw d) ->
  exists time tokens source,
    (1000 <= fst (getMockResponse toLowerCase message d))%Q
    /\ (fst (getMockResponse toLowerCase message d) <= 3000)%Q
    /\ get_prop (res_metadata (snd (getMockResponse toLowerCase message d)))
         (lit "processing_time") = Some (JNum time)
    /\ (1 # 2 <= time)%Q /\ (time <= 5 # 2)%Q
    /\ (exists used,
          get_prop (res_metadata (snd (getMockResponse toLowerCase message d)))
            (lit "tokens_used") = Some (JNum used)
          /\ (used == inject_Z tokens)%Q)
    /\ 50 <= tokens <= 149
    /\ res_sources (snd (getMockResponse toLowerCase message d)) = JArr [source]
    /\ get_prop source (lit "title") = Some (JStr (lit "Mock Source"))
    /\ (includes (toLowerCase message) (lit "hello") = true
        \/ includes (toLowerCase message) (lit "hi") = true ->
        res_content (snd (getMockResponse toLowerCase message d)) = JStr mockResponses_hello).
Proof.
  intros Hd Ht Hk.
  apply randomDraw_le in Hd, Ht, Hk.
  destruct Hd as [Hd0 Hd1], Ht as [Ht0 Ht1], Hk as [Hk0 Hk1].
  unfold getMockResponse. cbn [fst snd res_metadata res_sources res_content].
  assert (Hzero : (toDouble 0 == 0)%Q) by (vm_compute; reflexivity).
  (* the delay *)
  assert (HA0 : (0 <= toDouble (delay_draw d * 2000))%Q).
  { rewrite <- Hzero. apply toDouble_mono; lra. }
  assert (HA1 : (toDouble (delay_draw d * 2000) <= toDouble (largestDraw * 2000))%Q).
  { apply toDouble_mono; lra. }
  (* the processing time *)
  assert (HB0 : (0 <= toDouble (time_draw d * 2))%Q).
  { rewrite <- Hzero. apply toDouble_mono; lra. }
  assert (HB1 : (toDouble (time_draw d * 2) <= toDouble (largestDraw * 2))%Q).
  { apply toDouble_mono; lra. }
  (* the tokens *)
  assert (HC0 : (0 <= toDouble (tokens_draw d * 100))%Q).
  { rewrite <- Hzero. apply toDouble_mono; lra. }
  assert (HC1 : (toDouble (tokens_draw d * 100) <= toDouble (largestDraw * 100))%Q).
  { apply toDouble_mono; lra. }
  assert (HC2 : (toDouble (largestDraw * 100) < 100)%Q) by (vm_compute; reflexivity).
  set (C := toDouble (tokens_draw d * 100)) in *.
  assert (Hfloor : 0 <= Qfloor C <= 99).
  { split.
    - change 0 with (Qfloor 0). apply Qfloor_resp_le. exact HC0.
    - apply Z.lt_succ_r. change (Qfloor C < 100). rewrite Zlt_Qlt.
      eapply Qle_lt_trans; [apply Qfloor_le |]. change (inject_Z 100) with 100%Q. lra. }
  exists (toDouble (toDouble (time_draw d * 2) + (1 # 2))), (Qfloor C + 50).
  eexists.
  split; [| split; [| split; [reflexivity | split; [| split; [| split; [|
    split; [| split; [reflexivity | split; [reflexivity |]]]]]]]]].
  - assert (E : (toDouble 1000 == 1000)%Q) by (vm_compute; reflexivity).
    rewrite <- E at 1. apply toDouble_mono; lra.
  - assert (E : (toDouble (1000 + toDouble (largestDraw * 2000)) == 3000)%Q)
      by (vm_compute; reflexivity).
    rewrite <- E. apply toDouble_mono; lra.
  - assert (E : (toDouble (1 # 2) == 1 # 2)%Q) by (vm_compute; reflexivity).
    rewrite <- E at 1. apply toDouble_mono; lra.
  - assert (E : (toDouble (toDouble (largestDraw * 2) + (1 # 2)) == 5 # 2)%Q)
      by (vm_compute; reflexivity).
    rewrite <- E. apply toDouble_mono; lra.
  - eexists. split; [reflexivity |].
    assert (E : (inject_Z (Qfloor C) + 50 == inject_Z (Qfloor C + 50) * pow2 0)%Q).
    { rewrite inject_Z_plus. change (pow2 0) with 1%Q.
      change (inject_Z 50) with 50%Q. ring. }
    eapply Qeq_trans; [apply (toDouble_comp _ _ E) |].
    eapply Qeq_trans; [apply (isNumber_scaled (Qfloor C + 50) 0); lia |].
    change (pow2 0) with 1%Q. ring.
  - lia.
  - intros [H | H]; rewrite H; [reflexivity | by rewrite orb_true_r].
Qed.

(** At the largest draw the waiting time is 3000 ms and the processing
    time 2.5: the sums are rounded up to them. *)
Lemma getMockResponse_bounds_witness :
  (fst (getMockResponse asciiLower (lit "Can this HELP me?")
          {| delay_draw := largestDraw; time_draw := largestDraw;
             tokens_draw := largestDraw |}) == 3000)%Q
  /\ res_content
       (snd (getMockResponse asciiLower (lit "Can this HELP me?")
               {| delay_draw := largestDraw; time_draw := largestDraw;
                  tokens_draw := largestDraw |}))
     = JStr mockResponses_hello.
Proof.
  split; [vm_compute; reflexivity |].
  destruct (getMockResponse_bounds asciiLower (lit "Can this HELP me?")
              {| delay_draw := largestDraw; time_draw := largestDraw;
                 tokens_draw := largestDraw |}
              ltac:(split; [vm_compute; reflexivity |
                            split; [vm_compute; discriminate | vm_compute; reflexivity]])
              ltac:(split; [vm_compute; reflexivity |
                            split; [vm_compute; discriminate | vm_compute; reflexivity]])
              ltac:(split; [vm_compute; reflexivity |
                            split; [vm_compute; discriminate | vm_compute; reflexivity]]))
    as (time & tokens & source & _ & _ & _ & _ & _ & _ & _ & _ & _ & Hgreeting).
  apply Hgreeting. right. reflexivity.
Defined.

(** ** Examples of the properties that have a premise *)

Lemma sendMessage_result_truthy_witness :
  truthy (JArr []) = true /\ truthy (JObj []) = true
  /\ js_or (JArr []) (JArr []) = JArr [].
Proof.
  exact (sendMessage_result_truthy (host := exampleHost)
           (constWorld (Resolved (okResponse (JObj [(lit "response", JStr (lit "hi"))]))))
           (initialState []) (lit "hello") [] initialSettings
           {| res_content := JStr (lit "hi"); res_sources := JArr [];
              res_metadata := JObj [] |}
           _ eq_refl).
Defined.

Lemma handleSendMessage_always_witness :
  exists s' u p last,
    handleSendMessage (host := exampleHost) [] initialSettings (lit " hello ")
      (constWorld (Resolved (okResponse (JObj exampleAnswer)))) (initialState [])
    = (Returned tt, s')
    /\ chatHistory s' = [u; p; last]
    /\ msg_content u = JStr (lit " hello ")
    /\ isLoading s' = false.
Proof.
  destruct (handleSendMessage_always (host := exampleHost)
              (constWorld (Resolved (okResponse (JObj exampleAnswer)))) (initialState [])
              [] initialSettings (lit " hello ") ltac:(vm_compute; discriminate))
    as (s' & u & p & last & Hrun & Hhist & _ & Hcontent & _ & _ & _ & _ & Hload & _).
  exists s', u, p, last. by repeat split.
Defined.

Lemma handleSendMessage_bot_message_witness :
  exists s' u p last,
    handleSendMessage (host := exampleHost) [] initialSettings (lit "hello")
      (constWorld (Resolved (okResponse (JObj exampleAnswer)))) (initialState [])
    = (Returned tt, s')
    /\ chatHistory s' = [u; p; last]
    /\ msg_type last = JStr (lit "bot")
    /\ msg_content last = assoc (lit "response") exampleAnswer
    /\ msg_sources last = assoc (lit "sources") exampleAnswer.
Proof.
  destruct (handleSendMessage_bot_message (host := exampleHost)
              (constWorld (Resolved (okResponse (JObj exampleAnswer)))) (initialState [])
              [] initialSettings (lit "hello") ltac:(vm_compute; discriminate))
    as (s' & u & p & last & Hrun & Hhist & Hbot & Hfields).
  assert (Hbody : ~ nullish (data (okResponse (JObj exampleAnswer))))
    by (intros [H | H]; discriminate H).
  destruct (Hfields _ eq_refl Hbody) as [Hcontent Hsources].
  exists s', u, p, last. split; [exact Hrun |]. split; [exact Hhist |].
  split; [apply Hbot; eexists; by split |]. by split.
Defined.

Lemma processing_placeholder_is_sent_witness :
  exists s1 s2 payload,
    handleSendMessage (host := exampleHost) [] initialSettings (lit "first")
      (constWorld (Resolved (okResponse (JObj exampleAnswer)))) (initialState [])
    = (Returned tt, s1)
    /\ handleSendMessage (host := exampleHost) (chatHistory s1) initialSettings (lit "second")
         (constWorld (Resolved (okResponse (JObj exampleAnswer)))) s1
       = (Returned tt, s2)
    /\ last (requests s2)
       = Some {| req_method := POST; req_url := lit "/api/chat"; req_body := Some payload |}
    /\ length (p_chat_history payload) = 3%nat.
Proof.
  destruct (processing_placeholder_is_sent (host := exampleHost)
              (constWorld (Resolved (okResponse (JObj exampleAnswer)))) (initialState [])
              initialSettings (lit "first") (lit "second")
              ltac:(vm_compute; discriminate) ltac:(vm_compute; discriminate))
    as (s1 & s2 & payload & turn & Hrun1 & Hrun2 & Hlast & Hlen & _).
  exists s1, s2, payload. by repeat split.
Defined.

Lemma exchange_ids_distinct_witness :
  exists s' u p last,
    handleSendMessage (host := exampleHost) [] initialSettings (lit "hello")
      (constWorld (Rejected timeoutError)) (initialState [])
    = (Returned tt, s')
    /\ chatHistory s' = [u; p; last]
    /\ msg_id u <> msg_id p /\ msg_id p <> msg_id last /\ msg_id u <> msg_id last.
Proof.
  destruct (exchange_ids_distinct (host := exampleHost)
              (constWorld (Rejected timeoutError)) (initialState [])
              [] initialSettings (lit "hello")
              ltac:(intros i j _ Hij _; simpl; lia)
              ltac:(intros i _ Hi; simpl in *; lia)
              ltac:(vm_compute; discriminate))
    as (s' & u & p & last & a & b & c & Hrun & Hhist & Hu & Hp & Hl & _ & _ & _
        & Hab & Hbc & Hac).
  exists s', u, p, last. split; [exact Hrun |]. split; [exact Hhist |].
  rewrite Hu, Hp, Hl.
  repeat split; intros [= H]; [apply Hab | apply Hbc | apply Hac];
    rewrite H; reflexivity.
Defined.

Lemma Message_sources_links_witness :
  Message_sources (host := exampleHost)
    {| msg_id := JNum 1;
       msg_type := JStr (lit "bot");
       msg_content := JStr (lit "answer");
       msg_sources := JArr [JObj [(lit "url", JStr (lit "/docs/1"))]];
       msg_timestamp := JStr (lit "2024-01-01T00:00:00.000Z") |}
  = SourcesList [(JStr (lit "/docs/1"), JStr (lit "/docs/1"))].
Proof.
  apply (proj1 (Message_sources_links (host := exampleHost)
                  {| msg_id := JNum 1;
                     msg_type := JStr (lit "bot");
                     msg_content := JStr (lit "answer");
                     msg_sources := JArr [JObj [(lit "url", JStr (lit "/docs/1"))]];
                     msg_timestamp := JStr (lit "2024-01-01T00:00:00.000Z") |}
                  eq_refl)
           [JObj [(lit "url", JStr (lit "/docs/1"))]] eq_refl).
  - discriminate.
  - repeat constructor. intros [H | H]; discriminate H.
Defined.

Lemma first_exchange_in_history_tab_witness :
  exists s' u p last,
    handleSendMessage (host := exampleHost) [] initialSettings (lit "hello")
      (constWorld (Rejected timeoutError)) (initialState [])
    = (Returned tt, s')
    /\ conversations (chatHistory s')
       = [ {| conv_id := 0; userMessage := u; botMessage := Some p |};
           {| conv_id := 2; userMessage := last; botMessage := None |} ]
    /\ msg_content u = JStr (lit "hello").
Proof.
  destruct (first_exchange_in_history_tab (host := exampleHost)
              (constWorld (Rejected timeoutError)) (initialState [])
              initialSettings (lit "hello") eq_refl ltac:(vm_compute; discriminate))
    as (s' & u & p & last & Hrun & Hconv & Hcontent & _).
  exists s', u, p, last. by repeat split.
Defined.

(** ** VectorIndex.search *)

Import VectorIndex.

Lemma ranks_before_total : Total (fun x y => Is_true (ranks_before x y)).
Proof.
  intros x y. unfold ranks_before.
  destruct (Qeq_bool (similarity_score x) (similarity_score y)) eqn:E.
  - assert (E' : Qeq_bool (similarity_score y) (similarity_score x) = true).
    { apply Qeq_bool_iff. symmetry. by apply Qeq_bool_iff. }
    rewrite E'. rewrite (Nat.eqb_sym (sequence_index (retrieved y))).
    destruct (Nat.eqb_spec (sequence_index (retrieved x)) (sequence_index (retrieved y))).
    + destruct (Nat.leb_spec (chunk_id (retrieved x)) (chunk_id (retrieved y))).
      * by left.
      * right. apply Is_true_true. apply Nat.leb_le. lia.
    + destruct (Nat.ltb_spec (sequence_index (retrieved x)) (sequence_index (retrieved y))).
      * by left.
      * right. apply Is_true_true. apply Nat.ltb_lt. lia.
  - assert (E' : Qeq_bool (similarity_score y) (similarity_score x) = false).
    { destruct (Qeq_bool (similarity_score y) _) eqn:F; [| reflexivity].
      apply Qeq_bool_iff in F. symmetry in F. apply Qeq_bool_iff in F. congruence. }
    rewrite E'.
    destruct (Qle_bool (similarity_score y) (similarity_score x)) eqn:L; [by left |].
    right. apply Is_true_true. apply Qle_bool_iff.
    destruct (Qlt_le_dec (similarity_score y) (similarity_score x)) as [H | H].
    + apply Qlt_le_weak in H. apply Qle_bool_iff in H. congruence.
    + exact H.
Qed.

Lemma ranks_before_scoreGe x y : Is_true (ranks_before x y) -> scoreGe x y.
Proof.
  unfold ranks_before, scoreGe.
  destruct (Qeq_bool (similarity_score x) (similarity_score y)) eqn:E.
  - intros _. apply Qeq_bool_iff in E. rewrite E. apply Qle_refl.
  - intros H. apply Is_true_true in H. by apply Qle_bool_iff.
Qed.

Lemma scoreGe_transitive : Transitive scoreGe.
Proof. intros x y z Hxy Hyz. unfold scoreGe in *. by eapply Qle_trans. Qed.

Lemma Sorted_weaken {A} (R1 R2 : relation A) l :
  (forall x y, R1 x y -> R2 x y) -> Sorted R1 l -> Sorted R2 l.
Proof.
  intros Hsub. induction 1 as [| x l _ IH Hhd]; constructor; [exact IH |].
  destruct Hhd; constructor; auto.
Qed.

Lemma Forall_filter_bool {A} (P : A -> Prop) (f : A -> bool) l :
  Forall P l -> Forall P (List.filter f l).
Proof.
  induction 1 as [| x l Hx _ IH]; simpl; [constructor |].
  destruct (f x); [constructor |]; assumption.
Qed.

Lemma StronglySorted_take {A} (R : relation A) n l :
  StronglySorted R l -> StronglySorted R (take n l).
Proof.
  intros H. revert n. induction H as [| x l _ IH Hx]; intros [| n]; simpl; try constructor.
  - apply IH.
  - by apply Forall_take.
Qed.

Lemma StronglySorted_filter_bool {A} (R : relation A) (f : A -> bool) l :
  StronglySorted R l -> StronglySorted R (List.filter f l).
Proof.
  induction 1 as [| x l _ IH Hx]; simpl; [constructor |].
  destruct (f x); [constructor |]; [exact IH | by apply Forall_filter_bool | exact IH].
Qed.

Lemma filter_bool_length_le {A} (f : A -> bool) l :
  (length (List.filter f l) <= length l)%nat.
Proof. induction l as [| x l IH]; simpl; [lia |]. destruct (f x); simpl; lia. Qed.

Lemma filter_bool_Forall {A} (f : A -> bool) l :
  Forall (fun x => f x = true) (List.filter f l).
Proof.
  induction l as [| x l IH]; simpl; [constructor |].
  destruct (f x) eqn:E; [constructor |]; assumption.
Qed.

Lemma dimension_check query_vector index :
  forallb (fun e => Nat.eqb (length (vector e)) (length query_vector)) index = true
  <-> sameDimension query_vector index.
Proof.
  unfold sameDimension. rewrite forallb_forall, List.Forall_forall.
  split; intros H e He; specialize (H e He); by apply Nat.eqb_eq.
Qed.

(** C8. For every index and every query of the dimension of the
    stored vectors, [search] returns a result; and every result it
    returns has at most [top_k] entries, scores that never increase
    along the list, and no score below [min_score]. *)
Theorem search_top_k sqrt (index : VectorIndex) query_vector top_k min_score :
  (sameDimension query_vector index ->
   exists results, search sqrt index query_vector top_k min_score = inr results)
  /\ (forall results,
        search sqrt index query_vector top_k min_score = inr results ->
        (length results <= top_k)%nat
        /\ StronglySorted scoreGe results
        /\ Forall (fun r => (min_score <= similarity_score r)%Q) results).
Proof.
  unfold search. split.
  - intros H. apply dimension_check in H. rewrite H. eexists. reflexivity.
  - intros results.
    destruct (forallb _ index); [| discriminate]. intros [= <-].
    split; [| split].
    + etransitivity; [apply filter_bool_length_le |]. rewrite length_take. lia.
    + apply StronglySorted_filter_bool, StronglySorted_take.
      apply Sorted_StronglySorted; [exact scoreGe_transitive |].
      eapply Sorted_weaken; [exact ranks_before_scoreGe |].
      apply Sorted_merge_sort. exact ranks_before_total.
    + eapply Forall_impl; [apply filter_bool_Forall |].
      intros r Hr. simpl in Hr. by apply Qle_bool_iff.
Qed.

Example search_example :
  option_map (map (fun r => (chunk_id (retrieved r), Qred (similarity_score r))))
    (match search exampleSqrt exampleIndex [3; 4]%Q 3 (1 # 2) with
     | inr results => Some results
     | inl _ => None
     end)
  = Some [(1%nat, 1%Q); (2%nat, (24 # 25)%Q)].
Proof. reflexivity. Qed.

Example search_dimension_mismatch :
  search exampleSqrt exampleIndex [3; 4; 0]%Q 3 (1 # 2) = inl DimensionMismatch.
Proof. reflexivity. Qed.

Lemma search_top_k_witness :
  exists results,
    search exampleSqrt exampleIndex [3; 4]%Q 3 (1 # 2) = inr results
    /\ (length results <= 3)%nat
    /\ StronglySorted scoreGe results
    /\ Forall (fun r => (1 # 2 <= similarity_score r)%Q) results.
Proof.
  destruct (search_top_k exampleSqrt exampleIndex [3; 4]%Q 3 (1 # 2)) as [Hreturns Hresult].
  destruct (Hreturns ltac:(repeat constructor)) as [results Hrun].
  exists results. split; [exact Hrun | exact (Hresult results Hrun)].
Defined.
